(** * HubSpot MCP server: the activity aggregator and the temporal normalizer

    A shallow embedding of [src/mcp_server_hubspot/server.py]:
    [convert_datetime_fields] and [HubSpotClient.get_company_activity],
    together with the parts of the Python runtime they rely on
    ([dict.get], iteration, truthiness, [json.dumps]), and the companion
    operations [get_contacts], [get_companies] and the handlers
    [handle_list_tools], [handle_call_tool] and [handle_read_resource]. *)

From Stdlib Require Import List String Ascii ZArith NArith Lia Bool.
From Stdlib Require Import Floats.SpecFloat DecimalString.
Import ListNotations.
Local Open Scope list_scope.
Local Open Scope string_scope.

(** ** Python values *)

Module PyVal.

#[local] Set Warnings "-register-all".

(** The values that flow through the server: what [response.json()]
    produces (null, booleans, integers, floats, strings, arrays, objects)
    and the two kinds of object [convert_datetime_fields] looks for.
    A [str] is a [string] whose characters stand for code points below
    256; a [dict] is an association list in insertion order, its keys
    strings as in every JSON object; a [datetime] is identified by the
    text its [isoformat()] returns. Tuples, dates and other objects are
    not values of this type, and an integer has no size limit. *)
Inductive pyval : Type :=
| PNone
| PBool (b : bool)
| PInt (z : Z)
| PFloat (f : spec_float)
| PStr (s : string)
| PDatetime (iso : string)
| PTzlocal
| PList (l : list pyval)
| PDict (d : list (string * pyval)).

(** Induction over nested values: the generated principle says nothing
    about the elements of a list or the entries of a dictionary. *)
Section PyvalInd.
Variable P : pyval -> Prop.
Hypothesis HNone : P PNone.
Hypothesis HBool : forall b, P (PBool b).
Hypothesis HInt : forall z, P (PInt z).
Hypothesis HFloat : forall f, P (PFloat f).
Hypothesis HStr : forall s, P (PStr s).
Hypothesis HDatetime : forall iso, P (PDatetime iso).
Hypothesis HTzlocal : P PTzlocal.
Hypothesis HList : forall l, Forall P l -> P (PList l).
Hypothesis HDict : forall d, Forall (fun kv => P (snd kv)) d -> P (PDict d).

Fixpoint pyval_nested_ind (v : pyval) : P v :=
  match v with
  | PNone => HNone
  | PBool b => HBool b
  | PInt z => HInt z
  | PFloat f => HFloat f
  | PStr s => HStr s
  | PDatetime iso => HDatetime iso
  | PTzlocal => HTzlocal
  | PList l =>
      HList l
        ((fix all (l : list pyval) : Forall P l :=
            match l with
            | [] => Forall_nil _
            | x :: r => Forall_cons _ (pyval_nested_ind x) (all r)
            end) l)
  | PDict d =>
      HDict d
        ((fix all (d : list (string * pyval))
            : Forall (fun kv => P (snd kv)) d :=
            match d with
            | [] => Forall_nil _
            | (k, x) :: r =>
                Forall_cons (k, x) (pyval_nested_ind x) (all r)
            end) d)
  end.
End PyvalInd.

(** [d.get(k)] on the entries of a dictionary. *)
Fixpoint lookup (k : string) (d : list (string * pyval)) : option pyval :=
  match d with
  | [] => None
  | (k', v) :: r => if String.eqb k k' then Some v else lookup k r
  end.

(** [d[k] = v]: replaces the value of an existing key in place, appends a
    new key at the end. *)
Fixpoint dict_set (k : string) (v : pyval) (d : list (string * pyval))
  : list (string * pyval) :=
  match d with
  | [] => [(k, v)]
  | (k', v') :: r =>
      if String.eqb k k' then (k', v) :: r else (k', v') :: dict_set k v r
  end.

Definition keys (d : list (string * pyval)) : list string := map fst d.

(** What [d.get(k, default)] returns on the entries [d]. *)
Definition get_or (k : string) (default : pyval) (d : list (string * pyval))
  : pyval :=
  match lookup k d with
  | Some v => v
  | None => default
  end.

Definition is_dict (v : pyval) : bool :=
  match v with
  | PDict _ => true
  | _ => false
  end.

(** [bool(v)]. *)
Definition truthy (v : pyval) : bool :=
  match v with
  | PNone => false
  | PBool b => b
  | PInt z => negb (Z.eqb z 0)
  | PFloat (S754_zero _) => false
  | PFloat _ => true
  | PStr s => negb (String.eqb s "")
  | PDatetime _ => true
  | PTzlocal => true
  | PList l => match l with [] => false | _ => true end
  | PDict d => match d with [] => false | _ => true end
  end.

(** [v == s] for a string literal [s]. *)
Definition eq_str (v : pyval) (s : string) : bool :=
  match v with
  | PStr t => String.eqb t s
  | _ => false
  end.

(** The type name CPython prints in "'T' object ..." messages. *)
Definition tp_name (v : pyval) : string :=
  match v with
  | PNone => "NoneType"
  | PBool _ => "bool"
  | PInt _ => "int"
  | PFloat _ => "float"
  | PStr _ => "str"
  | PDatetime _ => "datetime.datetime"
  | PTzlocal => "tzlocal"
  | PList _ => "list"
  | PDict _ => "dict"
  end.

(** [type(v).__name__]. *)
Definition class_name (v : pyval) : string :=
  match v with
  | PDatetime _ => "datetime"
  | _ => tp_name v
  end.

End PyVal.
Import PyVal.

(** ** The temporal normalizer *)

Module Normalizer.

(** [s[:n]] and [s[n:]] for a non-negative [n]. *)
Fixpoint str_take (n : nat) (s : string) : string :=
  match n, s with
  | S m, String c r => String c (str_take m r)
  | _, _ => ""
  end.

Fixpoint str_drop (n : nat) (s : string) : string :=
  match n, s with
  | S m, String _ r => str_drop m r
  | _, _ => s
  end.

(** [f"UTC{offset[:3]}:{offset[3:]}"]. *)
Definition utc_label (offset : string) : string :=
  "UTC" ++ str_take 3 offset ++ ":" ++ str_drop 3 offset.

(** [convert_datetime_fields]. [offset] is what
    [datetime.now(tzlocal()).strftime('%z')] returns when the function
    runs, such as "+0800". *)
Fixpoint convert_datetime_fields (offset : string) (obj : pyval) : pyval :=
  match obj with
  | PDict d =>
      PDict (map (fun kv => (fst kv, convert_datetime_fields offset (snd kv))) d)
  | PList l => PList (map (convert_datetime_fields offset) l)
  | PDatetime iso => PStr iso
  | PTzlocal => PStr (utc_label offset)
  | _ => obj
  end.

(** Values without a [datetime] or [tzlocal] anywhere inside. *)
Fixpoint plain (v : pyval) : bool :=
  match v with
  | PDatetime _ | PTzlocal => false
  | PList l => forallb plain l
  | PDict d => forallb (fun kv => plain (snd kv)) d
  | _ => true
  end.

Definition is_scalar (v : pyval) : bool :=
  match v with
  | PList _ | PDict _ => false
  | _ => true
  end.

End Normalizer.
Import Normalizer.

(** ** Exceptions and outcomes *)

Module Exn.

(** The classes the handlers and the runtime tell apart. [ApiException]
    is the class named by the first [except] clause; every other one is
    an instance of [Exception] only, caught by the second clause.
    Signals that derive from [BaseException] alone ([KeyboardInterrupt],
    [SystemExit]) are not raised by the client library and are left out. *)
Inductive exn_class : Type :=
| ApiException
| AttributeError
| TypeError
| OtherException (name : string).

(** An exception: its class and [str(e)]. *)
Record exn : Type := mkExn { exn_cls : exn_class; exn_str : string }.

(** What evaluating an expression gives: a value, or a raised exception. *)
Inductive result (A : Type) : Type :=
| Return (a : A)
| Raise (e : exn).
Arguments Return {A} a.
Arguments Raise {A} e.

Definition rbind {A B : Type} (r : result A) (k : A -> result B) : result B :=
  match r with
  | Return a => k a
  | Raise e => Raise e
  end.

(** Evaluates [f] on the elements from left to right and stops at the
    first one that raises. *)
Fixpoint rmap {A B : Type} (f : A -> result B) (l : list A) : result (list B) :=
  match l with
  | [] => Return []
  | x :: r =>
      rbind (f x) (fun y => rbind (rmap f r) (fun ys => Return (y :: ys)))
  end.

(** [AttributeError] of [o.attr] on an object without that attribute. *)
Definition no_attribute (o : pyval) (attr : string) : exn :=
  mkExn AttributeError
        ("'" ++ tp_name o ++ "' object has no attribute '" ++ attr ++ "'").

(** [TypeError] of [iter(o)] on an object that is not iterable. *)
Definition not_iterable (o : pyval) : exn :=
  mkExn TypeError ("'" ++ tp_name o ++ "' object is not iterable").

(** [TypeError] of [json.dumps] on an object it cannot encode. *)
Definition not_serializable (o : pyval) : exn :=
  mkExn TypeError
        ("Object of type " ++ class_name o ++ " is not JSON serializable").

End Exn.
Import Exn.

Declare Scope result_scope.
Delimit Scope result_scope with result.
Notation "x <- c ;; k" := (rbind c (fun x => k))
  (at level 61, c at next level, right associativity) : result_scope.

(** ** [json.dumps] with its default arguments *)

Module Json.

Definition dquote : ascii := ascii_of_nat 34.
Definition backslash : ascii := ascii_of_nat 92.

Definition hex_digit (n : N) : ascii :=
  match String.get (N.to_nat n) "0123456789abcdef" with
  | Some c => c
  | None => "0"%char
  end.

(** One character of [py_encode_basestring_ascii]: the short escapes,
    the printable ASCII characters as they are, [\u00xx] for the rest. *)
Definition escape_char (c : ascii) : string :=
  let n := N_of_ascii c in
  if N.eqb n 34 then String backslash (String dquote "")
  else if N.eqb n 92 then String backslash (String backslash "")
  else if N.eqb n 10 then String backslash "n"
  else if N.eqb n 13 then String backslash "r"
  else if N.eqb n 9 then String backslash "t"
  else if N.eqb n 8 then String backslash "b"
  else if N.eqb n 12 then String backslash "f"
  else if andb (N.leb 32 n) (N.leb n 126) then String c ""
  else String backslash
         ("u00" ++ String (hex_digit (N.div n 16))
                     (String (hex_digit (N.modulo n 16)) "")).

Fixpoint escape (s : string) : string :=
  match s with
  | EmptyString => ""
  | String c r => escape_char c ++ escape r
  end.

Definition encode_str (s : string) : string :=
  String dquote (escape s ++ String dquote "").

(** [int.__repr__]. *)
Definition int_repr (z : Z) : string := NilZero.string_of_int (Z.to_int z).

Section Dumps.
(** [float.__repr__] on a finite float: the shortest decimal text that
    reads back as the same float, taken from the runtime. *)
Variable float_repr : spec_float -> string.

Definition float_text (f : spec_float) : string :=
  match f with
  | S754_nan => "NaN"
  | S754_infinity false => "Infinity"
  | S754_infinity true => "-Infinity"
  | _ => float_repr f
  end.

(** [json.dumps(v)]: separators [", "] and [": "], [ensure_ascii],
    entries in dictionary order; the first object that is not
    serializable raises. *)
Fixpoint dumps (v : pyval) : result string :=
  match v with
  | PNone => Return "null"
  | PBool true => Return "true"
  | PBool false => Return "false"
  | PInt z => Return (int_repr z)
  | PFloat f => Return (float_text f)
  | PStr s => Return (encode_str s)
  | PDatetime _ | PTzlocal => Raise (not_serializable v)
  | PList l =>
      rbind
        ((fix items (l : list pyval) : result (list string) :=
            match l with
            | [] => Return []
            | x :: r =>
                rbind (dumps x) (fun s =>
                rbind (items r) (fun ss => Return (s :: ss)))
            end) l)
        (fun ss => Return ("[" ++ String.concat ", " ss ++ "]"))
  | PDict d =>
      rbind
        ((fix entries (d : list (string * pyval)) : result (list string) :=
            match d with
            | [] => Return []
            | (k, x) :: r =>
                rbind (dumps x) (fun s =>
                rbind (entries r) (fun ss =>
                Return ((encode_str k ++ ": " ++ s) :: ss)))
            end) d)
        (fun ss => Return ("{" ++ String.concat ", " ss ++ "}"))
  end.
End Dumps.

(** The text of [json.dumps({"error": m})]. *)
Definition error_text (m : string) : string :=
  "{" ++ encode_str "error" ++ ": " ++ encode_str m ++ "}".

End Json.
Import Json.

(** ** The activity aggregator *)

Module Aggregator.

Local Open Scope result_scope.

(** [o.get(k, default)]: a dictionary answers, any other object has no
    attribute [get]. *)
Definition py_get (o : pyval) (k : string) (default : pyval) : result pyval :=
  match o with
  | PDict d => Return (get_or k default d)
  | _ => Raise (no_attribute o "get")
  end.

(** The elements a [for] clause draws from [o]: those of a list, the keys
    of a dictionary, the characters of a string. *)
Definition py_iter (o : pyval) : result (list pyval) :=
  match o with
  | PList l => Return l
  | PDict d => Return (map (fun kv => PStr (fst kv)) d)
  | PStr s => Return (map (fun c => PStr (String c "")) (list_ascii_of_string s))
  | _ => Raise (not_iterable o)
  end.

(** The dictionary display of lines 101 to 110, evaluated entry by entry. *)
Definition shared_fields (engagement_response engagement_data : pyval)
  : result (list (string * pyval)) :=
  id <- py_get engagement_data "id" PNone ;;
  type <- py_get engagement_data "type" PNone ;;
  created_at <- py_get engagement_data "createdAt" PNone ;;
  last_updated <- py_get engagement_data "lastUpdated" PNone ;;
  created_by <- py_get engagement_data "createdBy" PNone ;;
  modified_by <- py_get engagement_data "modifiedBy" PNone ;;
  timestamp <- py_get engagement_data "timestamp" PNone ;;
  associations <- py_get engagement_response "associations" (PDict []) ;;
  Return [("id", id); ("type", type); ("created_at", created_at);
          ("last_updated", last_updated); ("created_by", created_by);
          ("modified_by", modified_by); ("timestamp", timestamp);
          ("associations", associations)].

(** The dictionary built for one element of [to], [cc] or [bcc]. *)
Definition recipient_entry (recipient : pyval) : result pyval :=
  raw <- py_get recipient "raw" (PStr "") ;;
  email <- py_get recipient "email" (PStr "") ;;
  firstName <- py_get recipient "firstName" (PStr "") ;;
  lastName <- py_get recipient "lastName" (PStr "") ;;
  Return (PDict [("raw", raw); ("email", email);
                 ("firstName", firstName); ("lastName", lastName)]).

(** [[{...} for recipient in metadata.get(k, [])]]. *)
Definition recipient_list (metadata : pyval) (k : string) : result pyval :=
  source <- py_get metadata k (PList []) ;;
  recipients <- py_iter source ;;
  entries <- rmap recipient_entry recipients ;;
  Return (PList entries).

(** [metadata.get(outer, {}).get(inner, "")]. *)
Definition nested_get (metadata : pyval) (outer inner : string) : result pyval :=
  section <- py_get metadata outer (PDict []) ;;
  py_get section inner (PStr "").

(** The EMAIL content, lines 116 to 146. *)
Definition email_content (metadata : pyval) : result pyval :=
  subject <- py_get metadata "subject" (PStr "") ;;
  from_raw <- nested_get metadata "from" "raw" ;;
  from_email <- nested_get metadata "from" "email" ;;
  from_firstName <- nested_get metadata "from" "firstName" ;;
  from_lastName <- nested_get metadata "from" "lastName" ;;
  to <- recipient_list metadata "to" ;;
  cc <- recipient_list metadata "cc" ;;
  bcc <- recipient_list metadata "bcc" ;;
  sender_email <- nested_get metadata "sender" "email" ;;
  text <- py_get metadata "text" (PStr "") ;;
  body <- (if truthy text then Return text
           else py_get metadata "html" (PStr "")) ;;
  Return (PDict [("subject", subject);
                 ("from", PDict [("raw", from_raw); ("email", from_email);
                                 ("firstName", from_firstName);
                                 ("lastName", from_lastName)]);
                 ("to", to); ("cc", cc); ("bcc", bcc);
                 ("sender", PDict [("email", sender_email)]);
                 ("body", body)]).

Definition task_content (metadata : pyval) : result pyval :=
  subject <- py_get metadata "subject" (PStr "") ;;
  body <- py_get metadata "body" (PStr "") ;;
  status <- py_get metadata "status" (PStr "") ;;
  for_object_type <- py_get metadata "forObjectType" (PStr "") ;;
  Return (PDict [("subject", subject); ("body", body); ("status", status);
                 ("for_object_type", for_object_type)]).

Definition meeting_content (metadata : pyval) : result pyval :=
  title <- py_get metadata "title" (PStr "") ;;
  body <- py_get metadata "body" (PStr "") ;;
  start_time <- py_get metadata "startTime" PNone ;;
  end_time <- py_get metadata "endTime" PNone ;;
  internal_notes <- py_get metadata "internalMeetingNotes" (PStr "") ;;
  Return (PDict [("title", title); ("body", body);
                 ("start_time", start_time); ("end_time", end_time);
                 ("internal_notes", internal_notes)]).

Definition call_content (metadata : pyval) : result pyval :=
  body <- py_get metadata "body" (PStr "") ;;
  from_number <- py_get metadata "fromNumber" (PStr "") ;;
  to_number <- py_get metadata "toNumber" (PStr "") ;;
  duration_ms <- py_get metadata "durationMilliseconds" PNone ;;
  status <- py_get metadata "status" (PStr "") ;;
  disposition <- py_get metadata "disposition" (PStr "") ;;
  Return (PDict [("body", body); ("from_number", from_number);
                 ("to_number", to_number); ("duration_ms", duration_ms);
                 ("status", status); ("disposition", disposition)]).

(** The [if]/[elif] chain of lines 113 to 170. Every test evaluates
    [engagement_data.get("type")] again; the chain has no [else]. *)
Definition add_content (engagement_data metadata : pyval)
           (formatted_engagement : list (string * pyval))
  : result (list (string * pyval)) :=
  t <- py_get engagement_data "type" PNone ;;
  if eq_str t "NOTE" then
    content <- py_get metadata "body" (PStr "") ;;
    Return (dict_set "content" content formatted_engagement)
  else
  t <- py_get engagement_data "type" PNone ;;
  if eq_str t "EMAIL" then
    content <- email_content metadata ;;
    Return (dict_set "content" content formatted_engagement)
  else
  t <- py_get engagement_data "type" PNone ;;
  if eq_str t "TASK" then
    content <- task_content metadata ;;
    Return (dict_set "content" content formatted_engagement)
  else
  t <- py_get engagement_data "type" PNone ;;
  if eq_str t "MEETING" then
    content <- meeting_content metadata ;;
    Return (dict_set "content" content formatted_engagement)
  else
  t <- py_get engagement_data "type" PNone ;;
  if eq_str t "CALL" then
    content <- call_content metadata ;;
    Return (dict_set "content" content formatted_engagement)
  else
    Return formatted_engagement.

(** The body of the loop from line 97 to the summary that line 172
    appends. *)
Definition format_engagement (engagement_response : pyval) : result pyval :=
  engagement_data <- py_get engagement_response "engagement" (PDict []) ;;
  metadata <- py_get engagement_response "metadata" (PDict []) ;;
  formatted_engagement <- shared_fields engagement_response engagement_data ;;
  formatted_engagement <-
    add_content engagement_data metadata formatted_engagement ;;
  Return (PDict formatted_engagement).

(** *** The external CRM capability *)

(** One association record. *)
Record AssociatedObject : Type := { to_object_id : string }.

(** What the [results] attribute of a page holds: a list of association
    records, [None], or an object of some other type [tp] that cannot
    be iterated. *)
Inductive ResultsValue : Type :=
| ResultsList (links : list AssociatedObject)
| ResultsNone
| ResultsOther (tp : string).

(** One page of associations; [results] is [None] when the page object
    has no such attribute, and the value of the attribute otherwise. *)
Record Page : Type := { results : option ResultsValue }.

(** The object [api_request] returns; [json] is what its [json()] method
    gives, the parsed body or the exception the parser raises. *)
Record Response : Type := { json : result pyval }.

Section Client.
(** The state of everything outside the process: the CRM, the network,
    the clock. *)
Variable World : Type.

(** A computation that talks to the world: it leaves a new world
    behind, also when it raises. *)
Definition M (A : Type) : Type := World -> result A * World.

Definition ret {A : Type} (a : A) : M A := fun w => (Return a, w).

Definition bind {A B : Type} (c : M A) (k : A -> M B) : M B :=
  fun w =>
    match c w with
    | (Return a, w') => k a w'
    | (Raise e, w') => (Raise e, w')
    end.

Definition lift {A : Type} (r : result A) : M A := fun w => (r, w).

Record Client : Type := {
  (** [client.crm.associations.v4.basic_api.get_page(object_type,
      object_id, to_object_type, limit)] *)
  get_page : string -> string -> string -> Z -> M Page;
  (** [client.api_request({"method": m, "path": p})] *)
  api_request : string -> string -> M Response;
  (** [datetime.now(tzlocal()).strftime('%z')] *)
  local_offset : World -> string
}.

Variable client : Client.
Variable float_repr : spec_float -> string.

(** Lines 84 to 87: nothing is collected when the page has no [results]
    attribute; otherwise the [for] statement iterates over its value,
    and raises [TypeError] when that is [None] or cannot be iterated. *)
Definition engagement_ids_of (associated_engagements : Page)
  : result (list string) :=
  match results associated_engagements with
  | None => Return []
  | Some (ResultsList rs) =>
      Return
        (fold_left (fun ids result => (ids ++ [to_object_id result])%list)
                   rs [])
  | Some ResultsNone => Raise (not_iterable PNone)
  | Some (ResultsOther tp) =>
      Raise (mkExn TypeError ("'" ++ tp ++ "' object is not iterable"))
  end.

(** Lines 92 to 95: the request and the parse of its body. *)
Definition fetch_detail (engagement_id : string) : M pyval :=
  bind (api_request client "GET"
          ("/engagements/v1/engagements/" ++ engagement_id))
       (fun response => lift (json response)).

(** The loop of lines 91 to 172, [activities] being the list built so
    far. *)
Fixpoint collect (engagement_ids : list string) (activities : list pyval)
  : M (list pyval) :=
  match engagement_ids with
  | [] => ret activities
  | engagement_id :: rest =>
      bind (fetch_detail engagement_id) (fun engagement_response =>
      bind (lift (format_engagement engagement_response))
           (fun formatted_engagement =>
      collect rest (activities ++ [formatted_engagement])%list))
  end.

(** The [try] block, lines 73 to 176. *)
Definition try_block (company_id : string) : M string :=
  bind (get_page client "companies" company_id "engagements" 500)
       (fun associated_engagements =>
  bind (lift (engagement_ids_of associated_engagements))
       (fun engagement_ids =>
  bind (collect engagement_ids []) (fun activities => fun w =>
  let converted_activities :=
    convert_datetime_fields (local_offset client w) (PList activities) in
  (dumps float_repr converted_activities, w)))).

(** [get_company_activity]: the [try] block and its two handlers, which
    differ in the text they log only. An exception raised inside a
    handler would leave the function. *)
Definition get_company_activity (company_id : string) : M string :=
  fun w =>
    match try_block company_id w with
    | (Return s, w') => (Return s, w')
    | (Raise e, w') =>
        match exn_cls e with
        | ApiException =>
            (dumps float_repr (PDict [("error", PStr (exn_str e))]), w')
        | _ =>
            (dumps float_repr (PDict [("error", PStr (exn_str e))]), w')
        end
    end.

End Client.

Arguments ret {World A} a.
Arguments bind {World A B} c k.
Arguments lift {World A} r.
Arguments get_page {World} c _ _ _ _.
Arguments api_request {World} c _ _.
Arguments local_offset {World} c _.
Arguments fetch_detail {World} client engagement_id.
Arguments collect {World} client engagement_ids activities.
Arguments try_block {World} client float_repr company_id.
Arguments get_company_activity {World} client float_repr company_id.

End Aggregator.
Import Aggregator.

(** ** Shapes of responses, and mock clients *)

Module Shapes.

(** The entries of [response.get(k, {})] when that is a dictionary: the
    section [k] of the response, empty when the key is missing. *)
Definition section_of (k : string) (d : list (string * pyval))
  : option (list (string * pyval)) :=
  match lookup k d with
  | None => Some []
  | Some (PDict s) => Some s
  | Some _ => None
  end.

(** One of the five types the [if]/[elif] chain tests for. *)
Definition known_type (t : pyval) : bool :=
  eq_str t "NOTE" || eq_str t "EMAIL" || eq_str t "TASK"
  || eq_str t "MEETING" || eq_str t "CALL".

(** [metadata[k]], when present, can be iterated and holds dictionaries. *)
Definition recipients_ok (k : string) (md : list (string * pyval)) : bool :=
  match py_iter (get_or k (PList []) md) with
  | Return l => forallb is_dict l
  | Raise _ => false
  end.

(** Email metadata in the shape the CRM documents: [from] and [sender]
    objects, [to], [cc] and [bcc] arrays of objects, each of them
    optional. *)
Definition email_metadata_ok (md : list (string * pyval)) : bool :=
  is_dict (get_or "from" (PDict []) md)
  && recipients_ok "to" md && recipients_ok "cc" md && recipients_ok "bcc" md
  && is_dict (get_or "sender" (PDict []) md).

(** The [content] of a formatted summary, and a field of an object. *)
Definition summary_content (r : result pyval) : option pyval :=
  match r with
  | Return (PDict fields) => lookup "content" fields
  | _ => None
  end.

Definition field (k : string) (o : option pyval) : option pyval :=
  match o with
  | Some (PDict d) => lookup k d
  | _ => None
  end.

(** The recipient dictionary the code builds from the source entry [src]. *)
Definition recipient_of (src : list (string * pyval)) : pyval :=
  PDict [("raw", get_or "raw" (PStr "") src);
         ("email", get_or "email" (PStr "") src);
         ("firstName", get_or "firstName" (PStr "") src);
         ("lastName", get_or "lastName" (PStr "") src)].

(** [out] is the recipient dictionary of the source entry [src]. *)
Definition recipient_rel (src out : pyval) : Prop :=
  exists s, src = PDict s /\ out = recipient_of s.

(** The [body] expression of line 145 on the entries [md]. *)
Definition body_of (md : list (string * pyval)) : pyval :=
  if truthy (get_or "text" (PStr "") md)
  then get_or "text" (PStr "") md
  else get_or "html" (PStr "") md.

(** The body as the specification words it: [metadata.text] when the key
    is present, else [metadata.html], else the empty string. *)
Definition body_as_claimed (md : list (string * pyval)) : pyval :=
  match lookup "text" md with
  | Some t => t
  | None =>
      match lookup "html" md with
      | Some h => h
      | None => PStr ""
      end
  end.

(** A recipient as the specification words it: exactly the attributes
    [raw], [email], [first_name] and [last_name], each a string. *)
Definition recipient_as_claimed (v : pyval) : Prop :=
  exists raw email first_name last_name,
    v = PDict [("raw", PStr raw); ("email", PStr email);
               ("first_name", PStr first_name);
               ("last_name", PStr last_name)].

(** The names of the shared fields, in the order the summary has them. *)
Definition shared_keys : list string :=
  ["id"; "type"; "created_at"; "last_updated"; "created_by"; "modified_by";
   "timestamp"; "associations"].

(** Sample responses. *)
Definition response_of (type : string) (md : list (string * pyval))
  : list (string * pyval) :=
  [("engagement", PDict [("id", PInt 7); ("type", PStr type)]);
   ("metadata", PDict md)].

Definition sample_email_metadata : list (string * pyval) :=
  [("from", PDict [("email", PStr "ann@example.com");
                   ("firstName", PStr "Ann"); ("lastName", PStr "Lee")]);
   ("to", PList [PDict [("email", PStr "bob@example.com")];
                 PDict [("raw", PStr "Cy <cy@example.com>")]])].

Definition empty_text_metadata : list (string * pyval) :=
  [("text", PStr ""); ("html", PStr "<p>hi</p>")].

(** A mock client over a request log: the association call answers
    [page], a detail request for [path] answers [detail path], and every
    call is appended to the log. *)
Definition mock_client (page : result Page) (detail : string -> result Response)
  : Client (list string) :=
  {| get_page := fun object_type object_id to_object_type limit w =>
       (page, (w ++ [("get_page " ++ object_type ++ " " ++ object_id)%string])%list);
     api_request := fun method path w =>
       (detail path, (w ++ [(method ++ " " ++ path)%string])%list);
     local_offset := fun _ => "+0000" |}.

(** A stand-in for [float.__repr__] where no float is serialized. *)
Definition no_floats (f : spec_float) : string := "0.0".

End Shapes.
Import Shapes.

(** ** Runs of [get_company_activity] *)

Module Runs.

Section RunPredicates.
Variable World : Type.
Variable client : Client World.

(** The detail request for [engagement_id], issued in the world [w],
    raises [e] and leaves the world [w']: either the request itself
    raises, or parsing the body of its response does. *)
Inductive detail_fails (engagement_id : string) (w : World)
          (e : exn) (w' : World) : Prop :=
| fetch_raises :
    api_request client "GET"
      ("/engagements/v1/engagements/" ++ engagement_id) w = (Raise e, w') ->
    detail_fails engagement_id w e w'
| parse_raises (response : Response) :
    api_request client "GET"
      ("/engagements/v1/engagements/" ++ engagement_id) w
    = (Return response, w') ->
    json response = Raise e ->
    detail_fails engagement_id w e w'.

(** Handling one engagement raises [e]: its detail fetch or parse
    does, or formatting the parsed response does. *)
Inductive item_fails (engagement_id : string) (w : World)
          (e : exn) (w' : World) : Prop :=
| detail_raises :
    detail_fails engagement_id w e w' ->
    item_fails engagement_id w e w'
| format_raises (response : Response) (engagement_response : pyval) :
    api_request client "GET"
      ("/engagements/v1/engagements/" ++ engagement_id) w
    = (Return response, w') ->
    json response = Return engagement_response ->
    format_engagement engagement_response = Raise e ->
    item_fails engagement_id w e w'.

(** The call for [company_id] started in [w0] gets to the engagement
    [engagement_id] in the world [w]: the association page listed
    [pre], then it, then [post], and the engagements of [pre] were
    fetched and formatted to [activities]. *)
Definition reaches (company_id : string) (w0 : World)
           (pre : list string) (engagement_id : string)
           (post : list string) (activities : list pyval) (w : World)
  : Prop :=
  exists page w1,
    get_page client "companies" company_id "engagements" 500 w0
    = (Return page, w1)
    /\ engagement_ids_of page = Return (pre ++ engagement_id :: post)%list
    /\ collect client pre [] w1 = (Return activities, w).

(** The external CRM capability raises [e] at some stage of the call:
    the association fetch, a detail fetch, or the parse of a detail. *)
Inductive capability_raises (company_id : string) (w0 : World)
          (e : exn) (w' : World) : Prop :=
| association_stage :
    get_page client "companies" company_id "engagements" 500 w0
    = (Raise e, w') ->
    capability_raises company_id w0 e w'
| detail_stage pre engagement_id post activities w :
    reaches company_id w0 pre engagement_id post activities w ->
    detail_fails engagement_id w e w' ->
    capability_raises company_id w0 e w'.

(** The engagements [engagement_ids] are handled one after the other
    from the world [w]: each detail is fetched and parsed in the world
    the one before left, and formatted; [activities] are the summaries,
    one per identifier in the same order, and [w'] the world after the
    last request. *)
Inductive fetched : list string -> World -> list pyval -> World -> Prop :=
| fetched_nil w : fetched [] w [] w
| fetched_cons engagement_id rest w engagement_response w1
               formatted_engagement activities w' :
    fetch_detail client engagement_id w = (Return engagement_response, w1) ->
    format_engagement engagement_response = Return formatted_engagement ->
    fetched rest w1 activities w' ->
    fetched (engagement_id :: rest) w (formatted_engagement :: activities) w'.

End RunPredicates.

Arguments fetched {World} client _ _ _ _.
Arguments detail_fails {World} client engagement_id w e w'.
Arguments item_fails {World} client engagement_id w e w'.
Arguments reaches {World} client company_id w0 pre engagement_id post activities w.
Arguments capability_raises {World} client company_id w0 e w'.

(** Mock runs: an exception without a message, a page with three links
    whose second detail request fails, and a parsed note. *)
Definition silent_failure : exn := mkExn (OtherException "AssertionError") "".

Definition silent_client : Client (list string) :=
  mock_client (Raise silent_failure) (fun _ => Raise silent_failure).

Definition not_found : exn :=
  mkExn (OtherException "HTTPError") "404 Client Error: Not Found".

Definition three_links : Page :=
  {| results :=
       Some (ResultsList [ {| to_object_id := "e1" |};
                           {| to_object_id := "e2" |};
                           {| to_object_id := "e3" |} ]) |}.

Definition note_response : Response :=
  {| json := Return (PDict (response_of "NOTE" [("body", PStr "hello")])) |}.

Definition failing_client : Client (list string) :=
  mock_client (Return three_links)
    (fun path =>
       if String.eqb path "/engagements/v1/engagements/e2"
       then Raise not_found else Return note_response).

Definition unlinked_client : Client (list string) :=
  mock_client (Return {| results := Some (ResultsList []) |})
    (fun _ => Raise not_found).

(** A page whose [results] attribute is [None]. *)
Definition none_results_client : Client (list string) :=
  mock_client (Return {| results := Some ResultsNone |})
    (fun _ => Raise not_found).

(** The identifiers the loop of the requests runs over: those of the
    page, none when reading them raises. *)
Definition linked_ids (page : Page) : list string :=
  match engagement_ids_of page with
  | Return engagement_ids => engagement_ids
  | Raise _ => []
  end.

End Runs.
Import Runs.

(** ** The companion operations and the tool dispatch *)

Module Companion.

(** A record of the client library (a contact, a company, a created
    object): all the server does with one is call [to_dict()]. *)
Record CrmObject : Type := { to_dict : pyval }.

(** What [search_api.do_search] returns: [total] and [results] (named
    [search_results] here, [results] being the field of [Page]). *)
Record SearchResponse : Type := {
  total : Z;
  search_results : list CrmObject
}.

(** One [types.TextContent]. *)
Record TextContent : Type := { type : string; text : string }.

(** [pydantic.AnyUrl] as the server reads it: [uri.scheme] and
    [str(uri)]. *)
Record AnyUrl : Type := { scheme : string; url_text : string }.

(** One [types.Tool]. *)
Record Tool : Type := {
  tool_name : string;
  tool_description : string;
  inputSchema : pyval
}.

(** [ValueError(msg)], raised by the server itself. *)
Definition value_error (msg : string) : exn :=
  mkExn (OtherException "ValueError") msg.

(** [KeyError(k)] of [d[k]] for one of the key literals of the source,
    whose [str] is the key between single quotes. *)
Definition key_error (k : string) : exn :=
  mkExn (OtherException "KeyError") ("'" ++ k ++ "'").

(** [IndexError] of [l[0]] on an empty list. *)
Definition index_error : exn :=
  mkExn (OtherException "IndexError") "list index out of range".

(** [d[k]]. *)
Definition py_subscript (d : list (string * pyval)) (k : string)
  : result pyval :=
  match lookup k d with
  | Some v => Return v
  | None => Raise (key_error k)
  end.

(** [k in d]. *)
Definition py_in (k : string) (d : list (string * pyval)) : bool :=
  match lookup k d with
  | Some _ => true
  | None => false
  end.

(** [d.update(other)] for a dictionary [other]: its entries are set one
    after the other. *)
Definition dict_update (d other : list (string * pyval))
  : list (string * pyval) :=
  fold_left (fun acc kv => dict_set (fst kv) (snd kv) acc) other d.

(** [s.replace(old, new)] for a non-empty [old]: the occurrences are
    found from left to right and do not overlap. [skip] counts the
    characters of a match still to be dropped. *)
Fixpoint replace_from (skip : nat) (old new s : string) : string :=
  match s with
  | EmptyString => ""
  | String c r =>
      match skip with
      | S k => replace_from k old new r
      | O =>
          if String.prefix old s
          then new ++ replace_from (String.length old - 1) old new r
          else String c (replace_from 0 old new r)
      end
  end.

Definition str_replace (old new s : string) : string :=
  replace_from 0 old new s.

(** One filter of a search request. *)
Definition eq_filter (propertyName : string) (value : pyval) : pyval :=
  PDict [("propertyName", PStr propertyName); ("operator", PStr "EQ");
         ("value", value)].

(** [search_response.results[0].to_dict()]. *)
Definition first_to_dict (search_response : SearchResponse) : result pyval :=
  match search_results search_response with
  | first :: _ => Return (to_dict first)
  | [] => Raise index_error
  end.

(** [[types.TextContent(type="text", text=t)]]. *)
Definition text_content (t : string) : list TextContent :=
  [ {| type := "text"; text := t |} ].

(** [handle_list_tools], lines 240 to 296. *)
Definition string_property (description : string) : pyval :=
  PDict [("type", PStr "string"); ("description", PStr description)].

Definition object_property (description : string) : pyval :=
  PDict [("type", PStr "object"); ("description", PStr description)].

Definition handle_list_tools : list Tool :=
  [ {| tool_name := "hubspot_get_contacts";
       tool_description :=
         "Get contacts from HubSpot (requires optional crm.objects.contacts.read scope)";
       inputSchema :=
         PDict [("type", PStr "object"); ("properties", PDict [])] |};
    {| tool_name := "hubspot_create_contact";
       tool_description :=
         "Create a new contact in HubSpot (requires optional crm.objects.contacts.write scope)";
       inputSchema :=
         PDict [("type", PStr "object");
                ("properties",
                 PDict [("firstname", string_property "Contact's first name");
                        ("lastname", string_property "Contact's last name");
                        ("email", string_property "Contact's email address");
                        ("properties",
                         object_property "Additional contact properties")]);
                ("required", PList [PStr "firstname"; PStr "lastname"])] |};
    {| tool_name := "hubspot_get_companies";
       tool_description :=
         "Get companies from HubSpot (requires optional crm.objects.companies.read scope)";
       inputSchema :=
         PDict [("type", PStr "object"); ("properties", PDict [])] |};
    {| tool_name := "hubspot_create_company";
       tool_description :=
         "Create a new company in HubSpot (requires optional crm.objects.companies.write scope)";
       inputSchema :=
         PDict [("type", PStr "object");
                ("properties",
                 PDict [("name", string_property "Company name");
                        ("properties",
                         object_property "Additional company properties")]);
                ("required", PList [PStr "name"])] |};
    {| tool_name := "hubspot_get_company_activity";
       tool_description :=
         "Get activity history for a specific company (requires optional crm.objects.companies.read scope)";
       inputSchema :=
         PDict [("type", PStr "object");
                ("properties",
                 PDict [("company_id", string_property "HubSpot company ID")]);
                ("required", PList [PStr "company_id"])] |} ].

Section Crm.
Variable World : Type.

(** The client library as the companion operations use it, on top of
    the two calls of [Client]. *)
Record Crm : Type := {
  (** the association and raw-request calls and the clock *)
  base : Client World;
  (** [client.crm.contacts.get_all()] and [client.crm.companies.get_all()] *)
  contacts_get_all : M World (list CrmObject);
  companies_get_all : M World (list CrmObject);
  (** [client.crm.contacts.search_api.do_search] on a request with the
      given [filter_groups], and the same for companies *)
  contacts_do_search : pyval -> M World SearchResponse;
  companies_do_search : pyval -> M World SearchResponse;
  (** [client.crm.contacts.basic_api.create] on an input with the given
      [properties], and the same for companies *)
  contacts_create : list (string * pyval) -> M World CrmObject;
  companies_create : list (string * pyval) -> M World CrmObject;
  (** [get_company_activity] called with an identifier that is not a
      [str], which its signature and the tool's schema exclude: what the
      client library makes of such an identifier is not modelled *)
  activity_of_other_id : pyval -> M World string
}.

Variable crm : Crm.

(** [float.__repr__], as for [dumps]. *)
Variable float_repr : spec_float -> string.

(** [str(d)] of a dictionary [d], from the runtime. *)
Variable dict_str : pyval -> string.

(** [d.update(other)] for an [other] that is not a dictionary (an
    iterable of pairs, or a [TypeError] or [ValueError]), from the
    runtime. *)
Variable update_other :
  list (string * pyval) -> pyval -> result (list (string * pyval)).

Definition py_update (d : list (string * pyval)) (other : pyval)
  : result (list (string * pyval)) :=
  match other with
  | PDict entries => Return (dict_update d entries)
  | _ => update_other d other
  end.

Definition raise {A : Type} (e : exn) : M World A := lift (Raise e).

(** [try: body except ...: handler], the handler raising again what it
    does not catch. *)
Definition try_except {A : Type} (body : M World A) (handler : exn -> M World A)
  : M World A :=
  fun w =>
    match body w with
    | (Return a, w') => (Return a, w')
    | (Raise e, w') => handler e w'
    end.

(** The two handlers of [get_contacts], [get_companies] and
    [get_company_activity]. *)
Definition error_object_handler (e : exn) : M World string :=
  match exn_cls e with
  | ApiException =>
      lift (dumps float_repr (PDict [("error", PStr (exn_str e))]))
  | _ => lift (dumps float_repr (PDict [("error", PStr (exn_str e))]))
  end.

(** Lines 46 to 49 and 60 to 63: the records as dictionaries,
    normalized and serialized. *)
Definition dump_records (records : list CrmObject) : M World string :=
  fun w =>
    let records_dict := map to_dict records in
    let converted :=
      convert_datetime_fields (local_offset (base crm) w) (PList records_dict)
    in
    (dumps float_repr converted, w).

(** [get_contacts], lines 43 to 55. *)
Definition get_contacts : M World string :=
  try_except (bind (contacts_get_all crm) dump_records) error_object_handler.

(** [get_companies], lines 57 to 69. *)
Definition get_companies : M World string :=
  try_except (bind (companies_get_all crm) dump_records) error_object_handler.

(** [handle_read_resource], lines 227 to 237; [str] of the string a
    method returns is that string. *)
Definition handle_read_resource (uri : AnyUrl) : M World string :=
  if negb (String.eqb (scheme uri) "hubspot") then
    raise (value_error ("Unsupported URI scheme: " ++ scheme uri))
  else
    let path := str_replace "hubspot://" "" (url_text uri) in
    if String.eqb path "hubspot_contacts" then get_contacts
    else if String.eqb path "hubspot_companies" then get_companies
    else raise (value_error ("Unknown resource path: " ++ path)).

(** The inner [except ApiException] of lines 382 and 441. *)
Definition api_error_handler (e : exn) : M World (list TextContent) :=
  match exn_cls e with
  | ApiException => ret (text_content ("HubSpot API error: " ++ exn_str e))
  | _ => raise e
  end.

(** The two outer handlers, lines 453 to 456. *)
Definition tool_error_handler (e : exn) : M World (list TextContent) :=
  match exn_cls e with
  | ApiException => ret (text_content ("HubSpot API error: " ++ exn_str e))
  | _ => ret (text_content ("Error: " ++ exn_str e))
  end.

(** The filters of the contact search, lines 320 to 341. *)
Definition contact_filter_groups (firstname lastname company : pyval) : pyval :=
  let filters :=
    [eq_filter "firstname" firstname; eq_filter "lastname" lastname] in
  let filters :=
    if truthy company
    then (filters ++ [eq_filter "company" company])%list
    else filters in
  PList [PDict [("filters", PList filters)]].

(** The properties of the contact to create, lines 359 to 370. *)
Definition contact_properties (arguments : list (string * pyval))
           (firstname lastname : pyval) : result (list (string * pyval)) :=
  let properties := [("firstname", firstname); ("lastname", lastname)] in
  rbind (if py_in "email" arguments
         then rbind (py_subscript arguments "email") (fun email =>
              Return (dict_set "email" email properties))
         else Return properties) (fun properties =>
  if py_in "properties" arguments
  then rbind (py_subscript arguments "properties") (py_update properties)
  else Return properties).

(** The branch [hubspot_create_contact], lines 309 to 383. *)
Definition create_contact (arguments : option (list (string * pyval)))
  : M World (list TextContent) :=
  match arguments with
  | None | Some [] => raise (value_error "Missing arguments for create_contact")
  | Some arguments =>
      bind (lift (py_subscript arguments "firstname")) (fun firstname =>
      bind (lift (py_subscript arguments "lastname")) (fun lastname =>
      bind (lift (rbind (py_get (PDict arguments) "properties" (PDict []))
                        (fun properties => py_get properties "company" PNone)))
           (fun company =>
      try_except
        (bind (contacts_do_search crm
                 (contact_filter_groups firstname lastname company))
              (fun search_response =>
         if Z.ltb 0 (total search_response) then
           bind (lift (first_to_dict search_response)) (fun existing =>
           ret (text_content ("Contact already exists: " ++ dict_str existing)))
         else
           bind (lift (contact_properties arguments firstname lastname))
                (fun properties =>
           bind (contacts_create crm properties) (fun api_response =>
           ret (text_content (dict_str (to_dict api_response)))))))
        api_error_handler)))
  end.

(** The properties of the company to create, lines 423 to 429. *)
Definition company_properties (arguments : list (string * pyval))
           (company_name : pyval) : result (list (string * pyval)) :=
  let properties := [("name", company_name)] in
  if py_in "properties" arguments
  then rbind (py_subscript arguments "properties") (py_update properties)
  else Return properties.

(** The branch [hubspot_create_company], lines 390 to 442. *)
Definition create_company (arguments : option (list (string * pyval)))
  : M World (list TextContent) :=
  match arguments with
  | None | Some [] => raise (value_error "Missing arguments for create_company")
  | Some arguments =>
      bind (lift (py_subscript arguments "name")) (fun company_name =>
      try_except
        (bind (companies_do_search crm
                 (PList [PDict [("filters",
                                 PList [eq_filter "name" company_name])]]))
              (fun search_response =>
         if Z.ltb 0 (total search_response) then
           bind (lift (first_to_dict search_response)) (fun existing =>
           ret (text_content ("Company already exists: " ++ dict_str existing)))
         else
           bind (lift (company_properties arguments company_name))
                (fun properties =>
           bind (companies_create crm properties) (fun api_response =>
           ret (text_content (dict_str (to_dict api_response)))))))
        api_error_handler)
  end.

(** The branch [hubspot_get_company_activity], lines 445 to 448. *)
Definition company_activity (arguments : option (list (string * pyval)))
  : M World (list TextContent) :=
  match arguments with
  | None | Some [] =>
      raise (value_error "Missing arguments for get_company_activity")
  | Some arguments =>
      bind (lift (py_subscript arguments "company_id")) (fun company_id =>
      bind (match company_id with
            | PStr company_id =>
                get_company_activity (base crm) float_repr company_id
            | _ => activity_of_other_id crm company_id
            end) (fun results =>
      ret (text_content results)))
  end.

(** [handle_call_tool], lines 299 to 456. *)
Definition handle_call_tool (name : string)
           (arguments : option (list (string * pyval)))
  : M World (list TextContent) :=
  try_except
    (if String.eqb name "hubspot_get_contacts" then
       bind get_contacts (fun results => ret (text_content results))
     else if String.eqb name "hubspot_create_contact" then
       create_contact arguments
     else if String.eqb name "hubspot_get_companies" then
       bind get_companies (fun results => ret (text_content results))
     else if String.eqb name "hubspot_create_company" then
       create_company arguments
     else if String.eqb name "hubspot_get_company_activity" then
       company_activity arguments
     else raise (value_error ("Unknown tool: " ++ name)))
    tool_error_handler.

End Crm.

Arguments base {World} c.
Arguments contacts_get_all {World} c.
Arguments companies_get_all {World} c.
Arguments contacts_do_search {World} c _.
Arguments companies_do_search {World} c _.
Arguments contacts_create {World} c _.
Arguments companies_create {World} c _.
Arguments activity_of_other_id {World} c _.
Arguments raise {World A} e.
Arguments try_except {World A} body handler.
Arguments error_object_handler {World} float_repr e.
Arguments dump_records {World} crm float_repr records.
Arguments get_contacts {World} crm float_repr.
Arguments get_companies {World} crm float_repr.
Arguments handle_read_resource {World} crm float_repr uri.
Arguments api_error_handler {World} e.
Arguments tool_error_handler {World} e.
Arguments create_contact {World} crm dict_str update_other arguments.
Arguments create_company {World} crm dict_str update_other arguments.
Arguments company_activity {World} crm float_repr arguments.
Arguments handle_call_tool {World} crm float_repr dict_str update_other
  name arguments.

End Companion.
Import Companion.

(** ** Logging mocks of the client library, and auxiliary notions *)

Module Support.

(** The entries [mock_client] appends to its log. *)
Definition association_request (company_id : string) : string :=
  "get_page companies " ++ company_id.

Definition detail_request (engagement_id : string) : string :=
  "GET /engagements/v1/engagements/" ++ engagement_id.

(** A mock of the whole client library over a request log: every call
    answers with the given outcome and appends its name to the log. *)
Definition mock_crm (client : Client (list string))
           (contacts companies : result (list CrmObject))
           (search : pyval -> result SearchResponse)
           (create : list (string * pyval) -> result CrmObject)
  : Crm (list string) :=
  {| base := client;
     contacts_get_all := fun w => (contacts, (w ++ ["contacts.get_all"])%list);
     companies_get_all := fun w => (companies, (w ++ ["companies.get_all"])%list);
     contacts_do_search := fun filter_groups w =>
       (search filter_groups, (w ++ ["contacts.do_search"])%list);
     companies_do_search := fun filter_groups w =>
       (search filter_groups, (w ++ ["companies.do_search"])%list);
     contacts_create := fun properties w =>
       (create properties, (w ++ ["contacts.create"])%list);
     companies_create := fun properties w =>
       (create properties, (w ++ ["companies.create"])%list);
     activity_of_other_id := fun _ w =>
       (Raise (mkExn TypeError "unsupported identifier"), w) |}.

(** Stand-ins for [str(d)] and for [dict.update] with a non-dictionary
    where neither matters. *)
Definition no_dict_str (d : pyval) : string := "{...}".

Definition no_update_other (d : list (string * pyval)) (other : pyval)
  : result (list (string * pyval)) :=
  Raise (mkExn TypeError "object is not iterable").

(** Sample records and a sample mock. *)
Definition ann : CrmObject :=
  {| to_dict := PDict [("id", PStr "1");
                       ("properties", PDict [("firstname", PStr "Ann")]);
                       ("created_at", PDatetime "2024-01-01T00:00:00+00:00")] |}.

Definition sample_crm : Crm (list string) :=
  mock_crm unlinked_client (Return [ann]) (Raise not_found)
    (fun _ => Return {| total := 1; search_results := [ann] |})
    (fun _ => Return ann).

Definition empty_crm : Crm (list string) :=
  mock_crm unlinked_client (Return []) (Return [])
    (fun _ => Return {| total := 0; search_results := [] |})
    (fun properties => Return {| to_dict := PDict properties |}).

(** The keys the input schema of a tool lists as required. *)
Definition required_keys (t : Tool) : list string :=
  match inputSchema t with
  | PDict schema =>
      match lookup "required" schema with
      | Some (PList l) =>
          flat_map (fun v => match v with PStr k => [k] | _ => [] end) l
      | _ => []
      end
  | _ => []
  end.

(** A computation that, when it returns, returns one text content. *)
Definition answers_text {World : Type} (c : M World (list TextContent)) : Prop :=
  forall w l w', c w = (Return l, w') -> exists t, l = text_content t.

End Support.
Import Support.

Module NormalizerFacts.

Example utc_label_east : utc_label "+0800" = "UTC+08:00".
Proof. reflexivity. Qed.

Example utc_label_west : utc_label "-0500" = "UTC-05:00".
Proof. reflexivity. Qed.

Lemma convert_plain offset v : plain (convert_datetime_fields offset v) = true.
Proof.
  induction v as [| | | | | | |l IH|d IH] using pyval_nested_ind;
    simpl; try reflexivity.
  - rewrite forallb_forall. intros x Hx. apply in_map_iff in Hx.
    destruct Hx as [y [<- Hy]]. rewrite Forall_forall in IH. now apply IH.
  - rewrite forallb_forall. intros x Hx. apply in_map_iff in Hx.
    destruct Hx as [y [<- Hy]]. rewrite Forall_forall in IH. simpl.
    now apply (IH y).
Qed.

Lemma plain_fixed offset v : plain v = true -> convert_datetime_fields offset v = v.
Proof.
  induction v as [| | | | | | |l IH|d IH] using pyval_nested_ind;
    simpl; intros Hp; try reflexivity; try discriminate.
  - f_equal. rewrite forallb_forall in Hp. rewrite Forall_forall in IH.
    rewrite <- (map_id l) at 2. apply map_ext_in. intros x Hx. auto.
  - f_equal. rewrite forallb_forall in Hp. rewrite Forall_forall in IH.
    rewrite <- (map_id d) at 2. apply map_ext_in. intros [k x] Hx. simpl.
    f_equal. apply (IH (k, x) Hx). apply (Hp (k, x) Hx).
Qed.

Lemma convert_keys offset d :
  keys (map (fun kv => (fst kv, convert_datetime_fields offset (snd kv))) d)
  = keys d.
Proof. unfold keys. rewrite map_map. reflexivity. Qed.

Lemma convert_lookup offset k d :
  lookup k (map (fun kv => (fst kv, convert_datetime_fields offset (snd kv))) d)
  = option_map (convert_datetime_fields offset) (lookup k d).
Proof.
  induction d as [|[k' v] r IH]; simpl; [reflexivity|].
  destruct (String.eqb k k'); [reflexivity | exact IH].
Qed.

(** C2. The normalizer is idempotent: normalizing an already normalized
    value changes nothing, whatever the local offset is at either call,
    so [normalize(normalize(v)) = normalize(v)] for every nested value
    built from dictionaries, lists and scalars. *)
Theorem convert_datetime_fields_idempotent :
  forall (offset offset' : string) (v : pyval),
    convert_datetime_fields offset' (convert_datetime_fields offset v)
    = convert_datetime_fields offset v.
Proof.
  intros offset offset' v. apply plain_fixed, convert_plain.
Qed.

(** C10. Every string is returned unchanged, also one that reads like an
    ISO-8601 timestamp; a scalar is changed only if it is a [datetime] or
    a [tzlocal] instance, and a value with neither inside (such as
    deserialized JSON) passes through identically. *)
Theorem convert_datetime_fields_keeps_strings :
  (forall offset s, convert_datetime_fields offset (PStr s) = PStr s)
  /\ (forall offset,
        convert_datetime_fields offset (PStr "2024-01-01T00:00:00Z")
        = PStr "2024-01-01T00:00:00Z")
  /\ (forall offset v,
        is_scalar v = true ->
        convert_datetime_fields offset v <> v ->
        (exists iso, v = PDatetime iso) \/ v = PTzlocal)
  /\ (forall offset v, plain v = true -> convert_datetime_fields offset v = v).
Proof.
  repeat split.
  - intros offset v Hs Hne. destruct v; simpl in *; try congruence.
    + left. eexists. reflexivity.
    + now right.
  - intros offset v. apply plain_fixed.
Qed.

Lemma convert_datetime_fields_keeps_strings_witness :
  convert_datetime_fields "+0800"
    (PDict [("createdAt", PStr "2024-01-01T00:00:00Z"); ("n", PInt 3)])
  = PDict [("createdAt", PStr "2024-01-01T00:00:00Z"); ("n", PInt 3)].
Proof.
  apply (proj2 (proj2 (proj2 convert_datetime_fields_keeps_strings))).
  reflexivity.
Defined.

Example convert_datetime_and_tzlocal :
  convert_datetime_fields "-0500"
    (PList [PDatetime "2024-01-01T00:00:00"; PTzlocal; PStr "x"])
  = PList [PStr "2024-01-01T00:00:00"; PStr "UTC-05:00"; PStr "x"].
Proof. reflexivity. Qed.

End NormalizerFacts.

(** ** Facts about formatting one engagement *)

Module FormatFacts.

Local Open Scope result_scope.

Lemma rbind_Return_inv {A B : Type} (r : result A) (k : A -> result B) b :
  rbind r k = Return b -> exists a, r = Return a /\ k a = Return b.
Proof. destruct r as [a|e]; simpl; [eauto | discriminate]. Qed.

Lemma py_get_dict d k default :
  py_get (PDict d) k default = Return (get_or k default d).
Proof. reflexivity. Qed.

Lemma py_get_Return_inv o k default v :
  py_get o k default = Return v ->
  exists d, o = PDict d /\ v = get_or k default d.
Proof.
  destruct o; simpl; try discriminate. intros [= <-]. eauto.
Qed.

Lemma py_get_section k d s :
  section_of k d = Some s ->
  py_get (PDict d) k (PDict []) = Return (PDict s).
Proof.
  unfold section_of, py_get, get_or.
  destruct (lookup k d) as [[]|]; try discriminate; now intros [= ->].
Qed.

Lemma get_or_absent k default d : lookup k d = None -> get_or k default d = default.
Proof. unfold get_or. now intros ->. Qed.

Lemma get_or_present k default d v : lookup k d = Some v -> get_or k default d = v.
Proof. unfold get_or. now intros ->. Qed.

(** The shared fields of a response whose [engagement] is a dictionary. *)
Lemma shared_fields_dict d e :
  shared_fields (PDict d) (PDict e)
  = Return [("id", get_or "id" PNone e); ("type", get_or "type" PNone e);
            ("created_at", get_or "createdAt" PNone e);
            ("last_updated", get_or "lastUpdated" PNone e);
            ("created_by", get_or "createdBy" PNone e);
            ("modified_by", get_or "modifiedBy" PNone e);
            ("timestamp", get_or "timestamp" PNone e);
            ("associations", get_or "associations" (PDict []) d)].
Proof. reflexivity. Qed.

(** The chain adds nothing for a type it does not test for, and never
    looks at the metadata then. *)
Lemma add_content_unknown e metadata fields :
  known_type (get_or "type" PNone e) = false ->
  add_content (PDict e) metadata fields = Return fields.
Proof.
  unfold known_type, add_content. rewrite py_get_dict. simpl.
  intros H. repeat (apply orb_false_elim in H; destruct H as [H ?]).
  now repeat match goal with Hx : eq_str _ _ = false |- _ => rewrite Hx; clear Hx end.
Qed.

Lemma add_content_email e metadata fields :
  lookup "type" e = Some (PStr "EMAIL") ->
  add_content (PDict e) metadata fields
  = (content <- email_content metadata ;;
     Return (dict_set "content" content fields)).
Proof.
  intros H. unfold add_content. rewrite py_get_dict.
  now rewrite (get_or_present _ _ _ _ H).
Qed.

(** Formatting an EMAIL response with well-formed sections comes down to
    building the content. *)
Lemma format_email d e md :
  section_of "engagement" d = Some e ->
  lookup "type" e = Some (PStr "EMAIL") ->
  section_of "metadata" d = Some md ->
  format_engagement (PDict d)
  = (content <- email_content (PDict md) ;;
     Return (PDict [("id", get_or "id" PNone e); ("type", PStr "EMAIL");
               ("created_at", get_or "createdAt" PNone e);
               ("last_updated", get_or "lastUpdated" PNone e);
               ("created_by", get_or "createdBy" PNone e);
               ("modified_by", get_or "modifiedBy" PNone e);
               ("timestamp", get_or "timestamp" PNone e);
               ("associations", get_or "associations" (PDict []) d);
               ("content", content)])).
Proof.
  intros He Ht Hm. unfold format_engagement.
  rewrite (py_get_section _ _ _ He), (py_get_section _ _ _ Hm). cbn [rbind].
  rewrite shared_fields_dict. cbn [rbind].
  rewrite (add_content_email _ _ _ Ht).
  rewrite (get_or_present _ _ _ _ Ht).
  destruct (email_content (PDict md)); reflexivity.
Qed.

Lemma nested_get_dict md outer inner :
  nested_get (PDict md) outer inner
  = py_get (get_or outer (PDict []) md) inner (PStr "").
Proof. reflexivity. Qed.

Lemma rmap_recipient_entry_rel items entries :
  rmap recipient_entry items = Return entries ->
  Forall2 recipient_rel items entries.
Proof.
  revert entries. induction items as [|x r IH]; simpl; intros entries H.
  - injection H as <-. constructor.
  - apply rbind_Return_inv in H. destruct H as [y [Hy H]].
    apply rbind_Return_inv in H. destruct H as [ys [Hys H]].
    injection H as <-. constructor; [|now apply IH].
    destruct x; simpl in Hy; try discriminate.
    injection Hy as <-. exists d. split; reflexivity.
Qed.

Lemma rmap_recipient_entry_total items :
  forallb is_dict items = true ->
  exists entries, rmap recipient_entry items = Return entries.
Proof.
  induction items as [|x r IH]; simpl; intros H.
  - eauto.
  - apply andb_prop in H. destruct H as [Hx Hr].
    destruct (IH Hr) as [ys Hys]. destruct x; try discriminate.
    simpl. rewrite Hys. simpl. eauto.
Qed.

Lemma recipient_list_inv md k v :
  recipient_list (PDict md) k = Return v ->
  exists items entries,
    py_iter (get_or k (PList []) md) = Return items
    /\ Forall2 recipient_rel items entries
    /\ v = PList entries.
Proof.
  unfold recipient_list. rewrite py_get_dict. cbn [rbind]. intros H.
  apply rbind_Return_inv in H. destruct H as [items [Hi H]].
  apply rbind_Return_inv in H. destruct H as [entries [He H]].
  injection H as <-. exists items, entries.
  repeat split; [exact Hi | now apply rmap_recipient_entry_rel].
Qed.

Lemma recipient_list_total md k :
  recipients_ok k md = true ->
  exists entries, recipient_list (PDict md) k = Return (PList entries).
Proof.
  unfold recipients_ok, recipient_list. rewrite py_get_dict. cbn [rbind].
  destruct (py_iter (get_or k (PList []) md)) as [items|]; [|discriminate].
  intros H. destruct (rmap_recipient_entry_total _ H) as [entries He].
  simpl. rewrite He. simpl. eauto.
Qed.

(** What [email_content] returns, when it returns. *)
Lemma email_content_inv md c :
  email_content (PDict md) = Return c ->
  exists f to cc bcc s,
    get_or "from" (PDict []) md = PDict f
    /\ recipient_list (PDict md) "to" = Return to
    /\ recipient_list (PDict md) "cc" = Return cc
    /\ recipient_list (PDict md) "bcc" = Return bcc
    /\ get_or "sender" (PDict []) md = PDict s
    /\ c = PDict [("subject", get_or "subject" (PStr "") md);
                  ("from", recipient_of f);
                  ("to", to); ("cc", cc); ("bcc", bcc);
                  ("sender", PDict [("email", get_or "email" (PStr "") s)]);
                  ("body", body_of md)].
Proof.
  unfold email_content. rewrite py_get_dict. cbn [rbind].
  rewrite !nested_get_dict. intros H.
  apply rbind_Return_inv in H. destruct H as [fr [Hfr H]].
  apply py_get_Return_inv in Hfr. destruct Hfr as [f [Hf ->]].
  rewrite Hf in H. rewrite !py_get_dict in H. cbn [rbind] in H.
  apply rbind_Return_inv in H. destruct H as [to [Hto H]].
  apply rbind_Return_inv in H. destruct H as [cc [Hcc H]].
  apply rbind_Return_inv in H. destruct H as [bcc [Hbcc H]].
  apply rbind_Return_inv in H. destruct H as [se [Hse H]].
  apply py_get_Return_inv in Hse. destruct Hse as [s [Hs ->]].
  rewrite ?py_get_dict in H. cbn [rbind] in H.
  exists f, to, cc, bcc, s. repeat split; try assumption.
  unfold body_of, recipient_of.
  destruct (truthy (get_or "text" (PStr "") md)); simpl in H;
    now injection H as <-.
Qed.

Lemma email_content_total md :
  email_metadata_ok md = true ->
  exists c, email_content (PDict md) = Return c.
Proof.
  unfold email_metadata_ok. intros H.
  repeat (apply andb_prop in H; destruct H as [H ?]).
  destruct (recipient_list_total md "to") as [to Hto]; [assumption|].
  destruct (recipient_list_total md "cc") as [cc Hcc]; [assumption|].
  destruct (recipient_list_total md "bcc") as [bcc Hbcc]; [assumption|].
  unfold email_content. rewrite py_get_dict. cbn [rbind].
  rewrite !nested_get_dict.
  destruct (get_or "from" (PDict []) md); try discriminate.
  destruct (get_or "sender" (PDict []) md); try discriminate.
  rewrite !py_get_dict. cbn [rbind].
  rewrite Hto, Hcc, Hbcc. cbn [rbind].
  destruct (truthy (get_or "text" (PStr "") md)); simpl; eauto.
Qed.


(** C8. Building the shared fields never fails on a missing key: for a
    response whose [engagement] section is a dictionary or is missing,
    the eight fields are built, each of the seven taken from
    [engagement] is the source value or [None] when the key is missing,
    and [associations] is the source value or the empty dictionary. *)
Theorem shared_fields_total :
  forall (d e : list (string * pyval)),
    section_of "engagement" d = Some e ->
    exists fields,
      py_get (PDict d) "engagement" (PDict []) = Return (PDict e)
      /\ shared_fields (PDict d) (PDict e) = Return fields
      /\ keys fields = shared_keys
      /\ Forall (fun io =>
                   lookup (fst io) fields
                   = Some (match lookup (snd io) e with
                           | Some v => v
                           | None => PNone
                           end))
                [("id", "id"); ("type", "type"); ("created_at", "createdAt");
                 ("last_updated", "lastUpdated"); ("created_by", "createdBy");
                 ("modified_by", "modifiedBy"); ("timestamp", "timestamp")]
      /\ lookup "associations" fields
         = Some (match lookup "associations" d with
                 | Some v => v
                 | None => PDict []
                 end).
Proof.
  intros d e He. eexists. split; [now apply py_get_section|].
  split; [apply shared_fields_dict|].
  split; [reflexivity|]. split; [|reflexivity].
  repeat constructor.
Qed.

Lemma shared_fields_total_witness :
  section_of "engagement" [("metadata", PDict [])] = Some []
  /\ exists fields,
      shared_fields (PDict [("metadata", PDict [])]) (PDict []) = Return fields
      /\ lookup "id" fields = Some PNone
      /\ lookup "associations" fields = Some (PDict []).
Proof.
  split; [reflexivity|].
  destruct (shared_fields_total [("metadata", PDict [])] [] eq_refl)
    as [fields [_ [Hf [_ [Hs Ha]]]]].
  exists fields. split; [exact Hf|]. split; [|exact Ha].
  inversion Hs as [|x l Hid _]. exact Hid.
Defined.

(** C4. An engagement whose type is none of NOTE, EMAIL, TASK, MEETING,
    CALL (compared case-sensitively) is formatted to a summary with
    exactly the eight shared fields and no [content] key, whatever its
    metadata is, and the normalizer leaves it so. *)
Theorem unknown_type_has_no_content :
  forall (offset : string) (d e : list (string * pyval)),
    section_of "engagement" d = Some e ->
    known_type (get_or "type" PNone e) = false ->
    exists fields,
      format_engagement (PDict d) = Return (PDict fields)
      /\ keys fields = shared_keys
      /\ lookup "content" fields = None
      /\ exists fields',
          convert_datetime_fields offset (PDict fields) = PDict fields'
          /\ keys fields' = shared_keys
          /\ lookup "content" fields' = None.
Proof.
  intros offset d e He Ht. eexists. split.
  - unfold format_engagement. rewrite (py_get_section _ _ _ He).
    rewrite py_get_dict. cbn [rbind]. rewrite shared_fields_dict. cbn [rbind].
    rewrite (add_content_unknown _ _ _ Ht). reflexivity.
  - split; [reflexivity|]. split; [reflexivity|].
    eexists. split; [reflexivity|]. split; reflexivity.
Qed.

Lemma unknown_type_has_no_content_witness :
  known_type (PStr "UNKNOWN_X") = false
  /\ exists fields,
      format_engagement (PDict (response_of "UNKNOWN_X" [])) = Return (PDict fields)
      /\ keys fields = shared_keys
      /\ lookup "content" fields = None.
Proof.
  split; [reflexivity|].
  destruct (unknown_type_has_no_content "+0000" (response_of "UNKNOWN_X" [])
              [("id", PInt 7); ("type", PStr "UNKNOWN_X")] eq_refl eq_refl)
    as [fields [Hf [Hk [Hc _]]]].
  exists fields. repeat split; assumption.
Defined.

(** The match is case-sensitive: a lower-case [note] gets no content. *)
Example lowercase_note_is_unknown :
  summary_content
    (format_engagement (PDict (response_of "note" [("body", PStr "hello")])))
  = None.
Proof. reflexivity. Qed.

Example note_content :
  summary_content
    (format_engagement (PDict (response_of "NOTE" [("body", PStr "hello")])))
  = Some (PStr "hello").
Proof. reflexivity. Qed.

Lemma recipient_list_absent md k v :
  lookup k md = None ->
  recipient_list (PDict md) k = Return v -> v = PList [].
Proof.
  intros Hk H. apply recipient_list_inv in H.
  destruct H as [items [entries [Hi [Hrel ->]]]].
  rewrite (get_or_absent _ _ _ Hk) in Hi. injection Hi as <-.
  now inversion Hrel.
Qed.

Lemma format_email_total d e md :
  section_of "engagement" d = Some e ->
  lookup "type" e = Some (PStr "EMAIL") ->
  section_of "metadata" d = Some md ->
  email_metadata_ok md = true ->
  exists fields, format_engagement (PDict d) = Return (PDict fields).
Proof.
  intros He Ht Hm Hok. rewrite (format_email _ _ _ He Ht Hm).
  destruct (email_content_total _ Hok) as [c ->]. cbn [rbind]. eauto.
Qed.

Lemma format_email_inv d e md fields :
  section_of "engagement" d = Some e ->
  lookup "type" e = Some (PStr "EMAIL") ->
  section_of "metadata" d = Some md ->
  format_engagement (PDict d) = Return (PDict fields) ->
  exists c, email_content (PDict md) = Return c
            /\ lookup "content" fields = Some c.
Proof.
  intros He Ht Hm H. rewrite (format_email _ _ _ He Ht Hm) in H.
  apply rbind_Return_inv in H. destruct H as [c [Hc H]].
  injection H as <-. exists c. split; [exact Hc | reflexivity].
Qed.

(** C3. For an engagement of type EMAIL the summary's content is an
    object with exactly the keys subject, from, to, cc, bcc, sender and
    body, and a source field that is absent appears with its empty
    default; a summary is produced whenever the metadata present has the
    documented shape, in particular for empty metadata. *)
Theorem email_content_complete :
  forall (d e md : list (string * pyval)),
    section_of "engagement" d = Some e ->
    lookup "type" e = Some (PStr "EMAIL") ->
    section_of "metadata" d = Some md ->
    (email_metadata_ok md = true ->
     exists fields, format_engagement (PDict d) = Return (PDict fields))
    /\ (md = [] ->
        summary_content (format_engagement (PDict d))
        = Some (PDict [("subject", PStr "");
                       ("from", PDict [("raw", PStr ""); ("email", PStr "");
                                       ("firstName", PStr "");
                                       ("lastName", PStr "")]);
                       ("to", PList []); ("cc", PList []); ("bcc", PList []);
                       ("sender", PDict [("email", PStr "")]);
                       ("body", PStr "")]))
    /\ forall fields,
        format_engagement (PDict d) = Return (PDict fields) ->
        exists content,
          lookup "content" fields = Some (PDict content)
          /\ keys content
             = ["subject"; "from"; "to"; "cc"; "bcc"; "sender"; "body"]
          /\ (lookup "subject" md = None ->
              lookup "subject" content = Some (PStr ""))
          /\ (lookup "from" md = None ->
              lookup "from" content
              = Some (PDict [("raw", PStr ""); ("email", PStr "");
                             ("firstName", PStr ""); ("lastName", PStr "")]))
          /\ (lookup "to" md = None -> lookup "to" content = Some (PList []))
          /\ (lookup "cc" md = None -> lookup "cc" content = Some (PList []))
          /\ (lookup "bcc" md = None -> lookup "bcc" content = Some (PList []))
          /\ (lookup "sender" md = None ->
              lookup "sender" content = Some (PDict [("email", PStr "")]))
          /\ (lookup "text" md = None -> lookup "html" md = None ->
              lookup "body" content = Some (PStr "")).
Proof.
  intros d e md He Ht Hm. split; [now apply (format_email_total d e md)|].
  split.
  - intros ->. rewrite (format_email _ _ _ He Ht Hm). reflexivity.
  - intros fields H.
    destruct (format_email_inv _ _ _ _ He Ht Hm H) as [c [Hc Hl]].
    apply email_content_inv in Hc.
    destruct Hc as [f [to [cc [bcc [s [Hf [Hto [Hcc [Hbcc [Hs ->]]]]]]]]]].
    eexists. split; [exact Hl|]. split; [reflexivity|].
    cbn [lookup String.eqb Ascii.eqb Bool.eqb].
    repeat split.
    + intros Hn. now rewrite (get_or_absent _ _ _ Hn).
    + intros Hn. rewrite (get_or_absent _ _ _ Hn) in Hf.
      injection Hf as <-. reflexivity.
    + intros Hn. now rewrite (recipient_list_absent _ _ _ Hn Hto).
    + intros Hn. now rewrite (recipient_list_absent _ _ _ Hn Hcc).
    + intros Hn. now rewrite (recipient_list_absent _ _ _ Hn Hbcc).
    + intros Hn. rewrite (get_or_absent _ _ _ Hn) in Hs.
      injection Hs as <-. reflexivity.
    + intros Hn1 Hn2. unfold body_of.
      rewrite (get_or_absent _ _ _ Hn1), (get_or_absent _ _ _ Hn2).
      reflexivity.
Qed.

Lemma email_content_complete_witness :
  exists content,
    summary_content (format_engagement (PDict (response_of "EMAIL" [])))
    = Some (PDict content)
    /\ keys content = ["subject"; "from"; "to"; "cc"; "bcc"; "sender"; "body"].
Proof.
  destruct (email_content_complete (response_of "EMAIL" [])
              [("id", PInt 7); ("type", PStr "EMAIL")] []
              eq_refl eq_refl eq_refl) as [_ [Hempty _]].
  eexists. split; [exact (Hempty eq_refl) | reflexivity].
Defined.

Lemma recipient_of_keys src :
  exists r, recipient_of src = PDict r
            /\ keys r = ["raw"; "email"; "firstName"; "lastName"]
            /\ lookup "first_name" r = None /\ lookup "last_name" r = None.
Proof. eexists. repeat split. Qed.

(** C7, as amended. In EMAIL content the [from] object and every element
    of [to], [cc] and [bcc] is a dictionary with exactly the keys raw,
    email, firstName and lastName, in that order; each value is the
    source entry's value for that key, of whatever type, or the empty
    string when the key is absent; the three sequences have one element
    per source entry, in source order, and none when the source has
    none. *)
Theorem email_recipients_shape :
  forall (d e md : list (string * pyval)),
    section_of "engagement" d = Some e ->
    lookup "type" e = Some (PStr "EMAIL") ->
    section_of "metadata" d = Some md ->
    (email_metadata_ok md = true ->
     exists fields, format_engagement (PDict d) = Return (PDict fields))
    /\ forall fields,
        format_engagement (PDict d) = Return (PDict fields) ->
        (exists f,
            get_or "from" (PDict []) md = PDict f
            /\ field "from" (lookup "content" fields)
               = Some (PDict [("raw", get_or "raw" (PStr "") f);
                              ("email", get_or "email" (PStr "") f);
                              ("firstName", get_or "firstName" (PStr "") f);
                              ("lastName", get_or "lastName" (PStr "") f)]))
        /\ Forall (fun k =>
                     exists items entries,
                       py_iter (get_or k (PList []) md) = Return items
                       /\ field k (lookup "content" fields)
                          = Some (PList entries)
                       /\ Forall2
                            (fun src out =>
                               exists s,
                                 src = PDict s
                                 /\ out
                                    = PDict
                                        [("raw", get_or "raw" (PStr "") s);
                                         ("email", get_or "email" (PStr "") s);
                                         ("firstName",
                                          get_or "firstName" (PStr "") s);
                                         ("lastName",
                                          get_or "lastName" (PStr "") s)])
                            items entries)
                  ["to"; "cc"; "bcc"].
Proof.
  intros d e md He Ht Hm. split; [now apply (format_email_total d e md)|].
  intros fields H.
  destruct (format_email_inv _ _ _ _ He Ht Hm H) as [c [Hc Hl]].
  apply email_content_inv in Hc.
  destruct Hc as [f [to [cc [bcc [s [Hf [Hto [Hcc [Hbcc [Hs ->]]]]]]]]]].
  rewrite Hl. split.
  - exists f. split; [exact Hf | reflexivity].
  - apply recipient_list_inv in Hto, Hcc, Hbcc.
    destruct Hto as [i1 [o1 [Hi1 [Hr1 ->]]]].
    destruct Hcc as [i2 [o2 [Hi2 [Hr2 ->]]]].
    destruct Hbcc as [i3 [o3 [Hi3 [Hr3 ->]]]].
    repeat constructor.
    + exists i1, o1. repeat split; assumption.
    + exists i2, o2. repeat split; assumption.
    + exists i3, o3. repeat split; assumption.
Qed.

Lemma email_recipients_shape_witness :
  field "to"
    (summary_content
       (format_engagement (PDict (response_of "EMAIL" sample_email_metadata))))
  = Some (PList [PDict [("raw", PStr ""); ("email", PStr "bob@example.com");
                        ("firstName", PStr ""); ("lastName", PStr "")];
                 PDict [("raw", PStr "Cy <cy@example.com>");
                        ("email", PStr ""); ("firstName", PStr "");
                        ("lastName", PStr "")]])
  /\ exists fields,
      format_engagement (PDict (response_of "EMAIL" sample_email_metadata))
      = Return (PDict fields).
Proof.
  split; [reflexivity|].
  destruct (email_recipients_shape (response_of "EMAIL" sample_email_metadata)
              [("id", PInt 7); ("type", PStr "EMAIL")] sample_email_metadata
              eq_refl eq_refl eq_refl) as [Htotal _].
  exact (Htotal eq_refl).
Defined.

(** C7, as stated, fails: the recipient built from a source entry has the
    keys firstName and lastName, not first_name and last_name. *)
Lemma recipient_keys_counterexample :
  field "from"
    (summary_content
       (format_engagement (PDict (response_of "EMAIL" sample_email_metadata))))
  = Some (PDict [("raw", PStr ""); ("email", PStr "ann@example.com");
                 ("firstName", PStr "Ann"); ("lastName", PStr "Lee")])
  /\ ~ recipient_as_claimed
       (PDict [("raw", PStr ""); ("email", PStr "ann@example.com");
               ("firstName", PStr "Ann"); ("lastName", PStr "Lee")]).
Proof.
  split; [reflexivity|].
  intros [raw [email [first_name [last_name H]]]]. discriminate H.
Qed.

(** A source value that is not a string is copied as it is. *)
Example recipient_value_not_a_string :
  field "raw"
    (field "from"
       (summary_content
          (format_engagement
             (PDict (response_of "EMAIL" [("from", PDict [("raw", PNone)])])))))
  = Some PNone.
Proof. reflexivity. Qed.

(** C9, as amended. The body of an EMAIL is [metadata.text] when that is
    present and truthy (a non-empty string); otherwise it is
    [metadata.html] when that key is present, and the empty string when
    it is not. *)
Theorem email_body_prefers_truthy_text :
  forall (d e md : list (string * pyval)),
    section_of "engagement" d = Some e ->
    lookup "type" e = Some (PStr "EMAIL") ->
    section_of "metadata" d = Some md ->
    (email_metadata_ok md = true ->
     exists fields, format_engagement (PDict d) = Return (PDict fields))
    /\ forall fields,
        format_engagement (PDict d) = Return (PDict fields) ->
        exists body,
          field "body" (lookup "content" fields) = Some body
          /\ (forall t, lookup "text" md = Some t -> truthy t = true ->
                        body = t)
          /\ (lookup "text" md = None
              \/ (exists t, lookup "text" md = Some t /\ truthy t = false) ->
              (forall h, lookup "html" md = Some h -> body = h)
              /\ (lookup "html" md = None -> body = PStr "")).
Proof.
  intros d e md He Ht Hm. split; [now apply (format_email_total d e md)|].
  intros fields H.
  destruct (format_email_inv _ _ _ _ He Ht Hm H) as [c [Hc Hl]].
  apply email_content_inv in Hc.
  destruct Hc as [f [to [cc [bcc [s [_ [_ [_ [_ [_ ->]]]]]]]]]].
  rewrite Hl. exists (body_of md). split; [reflexivity|].
  unfold body_of. split.
  - intros t Hp Htr. rewrite (get_or_present _ _ _ _ Hp). now rewrite Htr.
  - intros Hfalsy.
    assert (Hf : truthy (get_or "text" (PStr "") md) = false).
    { destruct Hfalsy as [Hn | [t [Hp Hfl]]].
      - now rewrite (get_or_absent _ _ _ Hn).
      - now rewrite (get_or_present _ _ _ _ Hp). }
    rewrite Hf. split.
    + intros h Hh. now apply get_or_present.
    + intros Hn. now apply get_or_absent.
Qed.

Lemma email_body_prefers_truthy_text_witness :
  exists fields body,
    format_engagement
      (PDict (response_of "EMAIL" [("text", PStr "plain"); ("html", PStr "<b>")]))
    = Return (PDict fields)
    /\ field "body" (lookup "content" fields) = Some body
    /\ body = PStr "plain".
Proof.
  pose proof (email_body_prefers_truthy_text
                (response_of "EMAIL" [("text", PStr "plain"); ("html", PStr "<b>")])
                [("id", PInt 7); ("type", PStr "EMAIL")]
                [("text", PStr "plain"); ("html", PStr "<b>")]
                eq_refl eq_refl eq_refl) as [Htotal Hbody].
  destruct (Htotal eq_refl) as [fields Hf].
  destruct (Hbody fields Hf) as [body [Hb [Htext _]]].
  exists fields, body. split; [exact Hf|]. split; [exact Hb|].
  apply Htext; reflexivity.
Defined.

(** C9, as stated, fails: with [text] present but empty the body is the
    [html], not the [text]. *)
Lemma email_body_counterexample :
  lookup "text" empty_text_metadata = Some (PStr "")
  /\ body_as_claimed empty_text_metadata = PStr ""
  /\ field "body"
       (summary_content
          (format_engagement (PDict (response_of "EMAIL" empty_text_metadata))))
     = Some (PStr "<p>hi</p>")
  /\ field "body"
       (summary_content
          (format_engagement (PDict (response_of "EMAIL" empty_text_metadata))))
     <> Some (body_as_claimed empty_text_metadata).
Proof.
  repeat split. discriminate.
Qed.

End FormatFacts.

(** ** Facts about serialization *)

Module JsonFacts.

Lemma length_append (a b : string) :
  String.length (a ++ b) = String.length a + String.length b.
Proof. induction a as [|c a IH]; simpl; [reflexivity | now rewrite IH]. Qed.

Lemma escape_char_nonempty c : 1 <= String.length (escape_char c).
Proof.
  unfold escape_char.
  repeat match goal with
         | |- context [if ?b then _ else _] => destruct b
         end; simpl; lia.
Qed.

Lemma escape_length s : String.length s <= String.length (escape s).
Proof.
  induction s as [|c s IH]; simpl; [lia|].
  rewrite length_append. pose proof (escape_char_nonempty c). lia.
Qed.

Lemma Return_inj {A : Type} (a b : A) : Return a = Return b -> a = b.
Proof. now intros [=]. Qed.

(** The handlers' payload always serializes, to [error_text]. *)
Lemma dumps_error float_repr m :
  dumps float_repr (PDict [("error", PStr m)]) = Return (error_text m).
Proof. reflexivity. Qed.

Lemma error_text_head m : exists r, error_text m = String "{" r.
Proof. eexists. reflexivity. Qed.

(** The message can be read back from the text of an error object, as
    far as its being empty goes. *)
Lemma error_text_empty m : error_text m = error_text "" -> m = "".
Proof.
  unfold error_text, encode_str. intros H.
  apply (f_equal String.length) in H. simpl in H.
  rewrite !length_append in H. simpl in H.
  pose proof (escape_length m) as Hm.
  assert (H0 : String.length m = 0) by lia.
  destruct m; [reflexivity | discriminate].
Qed.

Lemma dumps_list_head float_repr l s :
  dumps float_repr (PList l) = Return s -> exists r, s = String "[" r.
Proof.
  simpl. intros H.
  match type of H with rbind ?x _ = _ => destruct x as [ss|]; [|discriminate] end.
  injection H as <-. eexists. reflexivity.
Qed.

(** The text of an error object is not the text of any list. *)
Lemma error_text_not_list float_repr l s m :
  dumps float_repr (PList l) = Return s -> s <> error_text m.
Proof.
  intros H. destruct (dumps_list_head _ _ _ H) as [r ->].
  destruct (error_text_head m) as [r' ->]. discriminate.
Qed.

(** A normalized value is serializable. *)
Lemma dumps_plain float_repr v :
  plain v = true -> exists s, dumps float_repr v = Return s.
Proof.
  induction v as [| [] | | | | | |l IH|d IH] using pyval_nested_ind;
    simpl; intros Hp; try discriminate; eauto.
  - match goal with
    | |- exists s, rbind ?x _ = _ => assert (H : exists ss, x = Return ss)
    end.
    { induction l as [|x r IHr]; [eauto|].
      simpl in Hp. apply andb_prop in Hp. destruct Hp as [Hx Hr].
      inversion IH as [|? ? Px Pr]; subst.
      destruct (Px Hx) as [s ->]. destruct (IHr Pr Hr) as [ss ->].
      simpl. eauto. }
    destruct H as [ss ->]. simpl. eauto.
  - match goal with
    | |- exists s, rbind ?x _ = _ => assert (H : exists ss, x = Return ss)
    end.
    { induction d as [|[k x] r IHr]; [eauto|].
      simpl in Hp. apply andb_prop in Hp. destruct Hp as [Hx Hr].
      inversion IH as [|? ? Px Pr]; subst.
      destruct (Px Hx) as [s Hs]. simpl in Hs. rewrite Hs.
      destruct (IHr Pr Hr) as [ss ->].
      simpl. eauto. }
    destruct H as [ss ->]. simpl. eauto.
Qed.

Example dumps_empty_list float_repr : dumps float_repr (PList []) = Return "[]".
Proof. reflexivity. Qed.

Example dumps_nested :
  dumps no_floats
    (PDict [("a", PInt (-12)); ("b", PList [PNone; PBool true; PStr "x"])])
  = Return ("{" ++ encode_str "a" ++ ": -12, " ++ encode_str "b"
            ++ ": [null, true, " ++ encode_str "x" ++ "]}").
Proof. reflexivity. Qed.

End JsonFacts.
Import JsonFacts.

(** ** Facts about runs *)

Module RunFacts.

Section WithClient.
Variable World : Type.
Variable client : Client World.
Variable float_repr : spec_float -> string.

Lemma fold_append_ids rs acc :
  fold_left (fun ids result => (ids ++ [to_object_id result])%list) rs acc
  = (acc ++ map to_object_id rs)%list.
Proof.
  revert acc. induction rs as [|r rs IH]; intros acc; simpl.
  - now rewrite app_nil_r.
  - rewrite IH, <- app_assoc. reflexivity.
Qed.

(** The identifiers are those of the links, in the order of the page. *)
Lemma engagement_ids_of_map page :
  engagement_ids_of page
  = match results page with
    | None => Return []
    | Some (ResultsList rs) => Return (map to_object_id rs)
    | Some ResultsNone => Raise (not_iterable PNone)
    | Some (ResultsOther tp) =>
        Raise (mkExn TypeError ("'" ++ tp ++ "' object is not iterable"))
    end.
Proof.
  unfold engagement_ids_of. destruct (results page) as [[rs| |tp]|];
    try reflexivity.
  f_equal. apply fold_append_ids.
Qed.

Lemma collect_app pre post activities w :
  collect client (pre ++ post)%list activities w
  = match collect client pre activities w with
    | (Return activities', w') => collect client post activities' w'
    | (Raise e, w') => (Raise e, w')
    end.
Proof.
  revert activities w. induction pre as [|id pre IH]; intros activities w.
  - reflexivity.
  - simpl. unfold bind, lift.
    destruct (fetch_detail client id w) as [[v|e] w1]; [|reflexivity].
    destruct (format_engagement v); [apply IH | reflexivity].
Qed.

Lemma fetch_detail_fails id w e w' :
  detail_fails client id w e w' -> fetch_detail client id w = (Raise e, w').
Proof.
  unfold fetch_detail, bind, lift. intros [H | response H Hj].
  - now rewrite H.
  - now rewrite H, Hj.
Qed.

(** A failing item ends the loop there, whatever was collected before
    and whatever comes after. *)
Lemma collect_item_fails id post activities w e w' :
  item_fails client id w e w' ->
  collect client (id :: post) activities w = (Raise e, w').
Proof.
  intros [H | response v H Hj Hf]; simpl; unfold bind at 1.
  - now rewrite (fetch_detail_fails _ _ _ _ H).
  - unfold fetch_detail, bind, lift. now rewrite H, Hj, Hf.
Qed.

Lemma try_block_item_fails company_id w0 pre id post activities w e w' :
  reaches client company_id w0 pre id post activities w ->
  item_fails client id w e w' ->
  try_block client float_repr company_id w0 = (Raise e, w').
Proof.
  intros [page [w1 [Hp [Hids Hpre]]]] Hfail.
  unfold try_block, bind at 1. rewrite Hp. unfold bind at 1, lift at 1.
  rewrite Hids. unfold bind at 1.
  rewrite collect_app, Hpre.
  now rewrite (collect_item_fails _ post activities _ _ _ Hfail).
Qed.

(** Both handlers turn the exception into the error object. *)
Lemma handler_catches company_id w e w' :
  try_block client float_repr company_id w = (Raise e, w') ->
  get_company_activity client float_repr company_id w
  = (Return (error_text (exn_str e)), w').
Proof.
  intros H. unfold get_company_activity. rewrite H.
  destruct (exn_cls e); now rewrite dumps_error.
Qed.

(** Nothing leaves the function as an exception. *)
Lemma get_company_activity_never_raises company_id w :
  exists s w',
    get_company_activity client float_repr company_id w = (Return s, w').
Proof.
  destruct (try_block client float_repr company_id w) as [[s|e] w'] eqn:H.
  - exists s, w'. unfold get_company_activity. now rewrite H.
  - exists (error_text (exn_str e)), w'. now apply handler_catches.
Qed.

Lemma capability_raises_try_block company_id w e w' :
  capability_raises client company_id w e w' ->
  try_block client float_repr company_id w = (Raise e, w').
Proof.
  intros [H | pre id post activities w1 Hr Hf].
  - unfold try_block, bind at 1. now rewrite H.
  - apply (try_block_item_fails _ _ _ _ _ _ _ _ _ Hr).
    now apply detail_raises.
Qed.

End WithClient.

(** C1, as amended. When the external capability raises [e] at any stage
    (association fetch, detail fetch, parse of a detail), the call
    returns, rather than raises, the serialization of the object with
    the single key error mapped to [str(e)]; that message is empty
    exactly when [str(e)] is. *)
Theorem capability_failure_returns_error_object :
  forall (World : Type) (client : Client World)
         (float_repr : spec_float -> string)
         (company_id : string) (w : World) (e : exn) (w' : World),
    capability_raises client company_id w e w' ->
    get_company_activity client float_repr company_id w
    = (dumps float_repr (PDict [("error", PStr (exn_str e))]), w')
    /\ dumps float_repr (PDict [("error", PStr (exn_str e))])
       = Return (error_text (exn_str e))
    /\ (error_text (exn_str e) = error_text "" <-> exn_str e = "").
Proof.
  intros World client float_repr company_id w e w' H.
  apply (capability_raises_try_block _ _ float_repr) in H.
  apply handler_catches in H. rewrite dumps_error.
  split; [exact H|]. split; [reflexivity|].
  split; [apply error_text_empty | now intros ->].
Qed.

Lemma capability_failure_returns_error_object_witness :
  capability_raises failing_client "123" []
    not_found
    ["get_page companies 123"; "GET /engagements/v1/engagements/e1";
     "GET /engagements/v1/engagements/e2"]
  /\ get_company_activity failing_client no_floats "123" []
     = (Return (error_text "404 Client Error: Not Found"),
        ["get_page companies 123"; "GET /engagements/v1/engagements/e1";
         "GET /engagements/v1/engagements/e2"]).
Proof.
  assert (H : capability_raises failing_client "123" [] not_found
                ["get_page companies 123"; "GET /engagements/v1/engagements/e1";
                 "GET /engagements/v1/engagements/e2"]).
  { eapply detail_stage
      with (pre := ["e1"]) (engagement_id := "e2") (post := ["e3"]).
    - exists three_links. eexists. repeat split; reflexivity.
    - apply fetch_raises. reflexivity. }
  split; [exact H|].
  destruct (capability_failure_returns_error_object
              _ failing_client no_floats "123" [] _ _ H) as [Hrun [Hd _]].
  rewrite Hrun, Hd. reflexivity.
Defined.

(** C1, as stated, fails: an exception whose [str] is empty gives the
    error object with an empty message. *)
Lemma empty_message_counterexample :
  capability_raises silent_client "123" [] silent_failure
    ["get_page companies 123"]
  /\ get_company_activity silent_client no_floats "123" []
     = (Return (error_text ""), ["get_page companies 123"])
  /\ ~ (exists m,
           m <> ""
           /\ fst (get_company_activity silent_client no_floats "123" [])
              = Return (error_text m)).
Proof.
  split; [apply association_stage; reflexivity|].
  split; [reflexivity|].
  intros [m [Hm H]]. apply Hm. apply error_text_empty.
  change (fst (get_company_activity silent_client no_floats "123" []))
    with (Return (A := string) (error_text "")) in H.
  symmetry. exact (Return_inj _ _ H).
Qed.

(** C5. When the detail fetch, the parse or the formatting of one
    engagement raises, the whole call ends there: it returns the error
    object of that exception, which is not the serialization of any
    list, so nothing of the engagements formatted before is returned,
    and the world is left as the failing request left it. *)
Theorem item_failure_aborts_call :
  forall (World : Type) (client : Client World)
         (float_repr : spec_float -> string)
         (company_id : string) (w0 : World)
         (pre : list string) (engagement_id : string) (post : list string)
         (activities : list pyval) (w : World) (e : exn) (w' : World),
    reaches client company_id w0 pre engagement_id post activities w ->
    item_fails client engagement_id w e w' ->
    get_company_activity client float_repr company_id w0
    = (Return (error_text (exn_str e)), w')
    /\ forall l s,
        dumps float_repr (PList l) = Return s -> s <> error_text (exn_str e).
Proof.
  intros World client float_repr company_id w0 pre id post activities
         w e w' Hr Hf.
  split.
  - apply handler_catches.
    now apply (try_block_item_fails _ _ _ _ _ _ _ _ _ _ _ _ Hr).
  - intros l s. apply error_text_not_list.
Qed.

Lemma item_failure_aborts_call_witness :
  reaches failing_client "123" [] ["e1"] "e2" ["e3"]
    [PDict [("id", PInt 7); ("type", PStr "NOTE"); ("created_at", PNone);
            ("last_updated", PNone); ("created_by", PNone);
            ("modified_by", PNone); ("timestamp", PNone);
            ("associations", PDict []); ("content", PStr "hello")]]
    ["get_page companies 123"; "GET /engagements/v1/engagements/e1"]
  /\ get_company_activity failing_client no_floats "123" []
     = (Return (error_text "404 Client Error: Not Found"),
        ["get_page companies 123"; "GET /engagements/v1/engagements/e1";
         "GET /engagements/v1/engagements/e2"]).
Proof.
  assert (Hr : reaches failing_client "123" [] ["e1"] "e2" ["e3"]
                 [PDict [("id", PInt 7); ("type", PStr "NOTE");
                         ("created_at", PNone); ("last_updated", PNone);
                         ("created_by", PNone); ("modified_by", PNone);
                         ("timestamp", PNone); ("associations", PDict []);
                         ("content", PStr "hello")]]
                 ["get_page companies 123";
                  "GET /engagements/v1/engagements/e1"]).
  { exists three_links. eexists. repeat split; reflexivity. }
  split; [exact Hr|].
  refine (proj1 (item_failure_aborts_call _ failing_client no_floats "123" []
                   ["e1"] "e2" ["e3"] _ _ not_found _ Hr _)).
  apply detail_raises, fetch_raises. reflexivity.
Defined.

(** C6, as amended. When the association page has no [results]
    attribute, or its [results] is an empty list, the call returns the
    text of the empty list and issues no detail request. When the
    attribute is there but holds [None], or another object that cannot
    be iterated, the [for] statement raises [TypeError] and the call
    returns the error object with that message. *)
Theorem results_attribute_decides_empty_list :
  forall (World : Type) (client : Client World)
         (float_repr : spec_float -> string)
         (company_id : string) (w : World) (page : Page) (w' : World),
    get_page client "companies" company_id "engagements" 500 w
    = (Return page, w') ->
    (results page = None \/ results page = Some (ResultsList []) ->
     get_company_activity client float_repr company_id w = (Return "[]", w'))
    /\ (results page = Some ResultsNone ->
        get_company_activity client float_repr company_id w
        = (Return (error_text "'NoneType' object is not iterable"), w'))
    /\ (forall tp,
          results page = Some (ResultsOther tp) ->
          get_company_activity client float_repr company_id w
          = (Return (error_text ("'" ++ tp ++ "' object is not iterable")),
             w')).
Proof.
  intros World client float_repr company_id w page w' Hp.
  assert (Hraise : forall e,
             engagement_ids_of page = Raise e ->
             get_company_activity client float_repr company_id w
             = (Return (error_text (exn_str e)), w')).
  { intros e He. apply handler_catches.
    unfold try_block, bind at 1. rewrite Hp.
    unfold bind at 1, lift at 1. now rewrite He. }
  split; [|split].
  - intros Hres.
    assert (Hids : engagement_ids_of page = Return []).
    { rewrite engagement_ids_of_map. now destruct Hres as [-> | ->]. }
    unfold get_company_activity, try_block, bind at 1. rewrite Hp.
    unfold bind at 1, lift at 1. rewrite Hids. reflexivity.
  - intros Hres. apply (Hraise (not_iterable PNone)).
    rewrite engagement_ids_of_map. now rewrite Hres.
  - intros tp Hres.
    apply (Hraise (mkExn TypeError ("'" ++ tp ++ "' object is not iterable"))).
    rewrite engagement_ids_of_map. now rewrite Hres.
Qed.

Lemma results_attribute_decides_empty_list_witness :
  get_company_activity unlinked_client no_floats "123" []
  = (Return "[]", ["get_page companies 123"]).
Proof.
  apply (proj1 (results_attribute_decides_empty_list _ unlinked_client
                  no_floats "123" [] {| results := Some (ResultsList []) |}
                  ["get_page companies 123"] eq_refl)).
  right. reflexivity.
Defined.

(** C6, as stated, fails: a page whose [results] attribute is [None]
    exposes no results collection, and the call returns the error
    object, not the empty list. *)
Lemma none_results_counterexample :
  get_page none_results_client "companies" "123" "engagements" 500 []
  = (Return {| results := Some ResultsNone |}, ["get_page companies 123"])
  /\ get_company_activity none_results_client no_floats "123" []
     = (Return (error_text "'NoneType' object is not iterable"),
        ["get_page companies 123"])
  /\ fst (get_company_activity none_results_client no_floats "123" [])
     <> Return "[]".
Proof.
  split; [reflexivity|]. split; [reflexivity|].
  intros H. discriminate H.
Qed.

(** The scenario of the specification: one linked note. *)
Example one_note_scenario :
  get_company_activity
    (mock_client
       (Return {| results := Some (ResultsList [ {| to_object_id := "e1" |} ]) |})
       (fun _ =>
          Return {| json :=
            Return (PDict [("engagement",
                            PDict [("id", PStr "e1"); ("type", PStr "NOTE");
                                   ("createdAt", PStr "2024-01-01T00:00:00Z")]);
                           ("metadata", PDict [("body", PStr "hello")])]) |}))
    no_floats "123" []
  = (dumps no_floats
       (PList [PDict [("id", PStr "e1"); ("type", PStr "NOTE");
                      ("created_at", PStr "2024-01-01T00:00:00Z");
                      ("last_updated", PNone); ("created_by", PNone);
                      ("modified_by", PNone); ("timestamp", PNone);
                      ("associations", PDict []);
                      ("content", PStr "hello")]]),
     ["get_page companies 123"; "GET /engagements/v1/engagements/e1"]).
Proof. reflexivity. Qed.

End RunFacts.

(** ** Further facts about the normalizer and the formatting *)

Module MoreFormatFacts.

Import NormalizerFacts FormatFacts JsonFacts.
Local Open Scope result_scope.

(** X1. The normalizer keeps the structure: a dictionary keeps its keys, in
    their order, each value being the normalized source value; a list
    keeps its length, each element being the normalized source
    element. *)
Theorem convert_preserves_structure :
  forall (offset : string),
    (forall d, exists d',
        convert_datetime_fields offset (PDict d) = PDict d'
        /\ keys d' = keys d
        /\ forall k, lookup k d'
                     = option_map (convert_datetime_fields offset) (lookup k d))
    /\ (forall l, exists l',
          convert_datetime_fields offset (PList l) = PList l'
          /\ List.length l' = List.length l
          /\ forall i, nth_error l' i
                       = option_map (convert_datetime_fields offset)
                                    (nth_error l i)).
Proof.
  intros offset. split.
  - intros d. eexists. split; [reflexivity|]. split.
    + apply convert_keys.
    + intros k. apply convert_lookup.
  - intros l. eexists. split; [reflexivity|]. split.
    + apply length_map.
    + intros i. apply nth_error_map.
Qed.

Lemma add_content_inv e metadata fields0 fields :
  add_content (PDict e) metadata fields0 = Return fields ->
  (known_type (get_or "type" PNone e) = false /\ fields = fields0)
  \/ (known_type (get_or "type" PNone e) = true
      /\ exists content, fields = dict_set "content" content fields0).
Proof.
  unfold add_content, known_type. rewrite !py_get_dict. cbn [rbind].
  destruct (eq_str (get_or "type" PNone e) "NOTE").
  { intros H. apply rbind_Return_inv in H. destruct H as [c [_ H]].
    injection H as <-. right. split; [reflexivity | eauto]. }
  destruct (eq_str (get_or "type" PNone e) "EMAIL").
  { intros H. apply rbind_Return_inv in H. destruct H as [c [_ H]].
    injection H as <-. right. split; [reflexivity | eauto]. }
  destruct (eq_str (get_or "type" PNone e) "TASK").
  { intros H. apply rbind_Return_inv in H. destruct H as [c [_ H]].
    injection H as <-. right. split; [reflexivity | eauto]. }
  destruct (eq_str (get_or "type" PNone e) "MEETING").
  { intros H. apply rbind_Return_inv in H. destruct H as [c [_ H]].
    injection H as <-. right. split; [reflexivity | eauto]. }
  destruct (eq_str (get_or "type" PNone e) "CALL").
  { intros H. apply rbind_Return_inv in H. destruct H as [c [_ H]].
    injection H as <-. right. split; [reflexivity | eauto]. }
  intros [= <-]. left. split; reflexivity.
Qed.

Lemma format_engagement_inv r s :
  format_engagement r = Return s ->
  exists d e fields,
    r = PDict d
    /\ get_or "engagement" (PDict []) d = PDict e
    /\ add_content (PDict e) (get_or "metadata" (PDict []) d)
         [("id", get_or "id" PNone e); ("type", get_or "type" PNone e);
          ("created_at", get_or "createdAt" PNone e);
          ("last_updated", get_or "lastUpdated" PNone e);
          ("created_by", get_or "createdBy" PNone e);
          ("modified_by", get_or "modifiedBy" PNone e);
          ("timestamp", get_or "timestamp" PNone e);
          ("associations", get_or "associations" (PDict []) d)]
       = Return fields
    /\ s = PDict fields.
Proof.
  unfold format_engagement. intros H.
  apply rbind_Return_inv in H. destruct H as [ed [Hed H]].
  apply py_get_Return_inv in Hed. destruct Hed as [d [-> ->]].
  rewrite py_get_dict in H. cbn [rbind] in H.
  apply rbind_Return_inv in H. destruct H as [f0 [Hf0 H]].
  apply rbind_Return_inv in H. destruct H as [fields [Hf H]].
  injection H as <-.
  destruct (get_or "engagement" (PDict []) d) as [| | | | | | | |e] eqn:He;
    try discriminate Hf0.
  rewrite shared_fields_dict in Hf0. injection Hf0 as <-.
  exists d, e, fields. repeat split; assumption.
Qed.

(** X3. Every summary the formatting produces is a dictionary whose keys are
    the eight shared ones, followed by [content] exactly when the type
    is one of the five known ones; its [type] is the source's
    [engagement.type], and its [id] the source's [engagement.id]. *)
Theorem summary_keys_follow_type :
  forall (r s : pyval),
    format_engagement r = Return s ->
    exists d e fields,
      r = PDict d
      /\ get_or "engagement" (PDict []) d = PDict e
      /\ s = PDict fields
      /\ keys fields
         = (if known_type (get_or "type" PNone e)
            then shared_keys ++ ["content"]
            else shared_keys)%list
      /\ lookup "type" fields = Some (get_or "type" PNone e)
      /\ lookup "id" fields = Some (get_or "id" PNone e).
Proof.
  intros r s H. apply format_engagement_inv in H.
  destruct H as [d [e [fields [-> [He [Ha ->]]]]]].
  exists d, e, fields. split; [reflexivity|]. split; [exact He|].
  split; [reflexivity|].
  apply add_content_inv in Ha.
  destruct Ha as [[Hk ->] | [Hk [c ->]]]; rewrite Hk; repeat split.
Qed.

Lemma summary_keys_follow_type_witness :
  exists fields,
    format_engagement (PDict (response_of "CALL" [])) = Return (PDict fields)
    /\ keys fields = (shared_keys ++ ["content"])%list.
Proof.
  destruct (summary_keys_follow_type (PDict (response_of "CALL" [])) _ eq_refl)
    as [d [e [fields [Hr [He [Hs [Hk _]]]]]]].
  exists fields. split.
  - rewrite <- Hs. reflexivity.
  - injection Hr as <-. injection He as <-. exact Hk.
Defined.


Lemma format_known d e md :
  section_of "engagement" d = Some e ->
  section_of "metadata" d = Some md ->
  format_engagement (PDict d)
  = (fields <- add_content (PDict e) (PDict md)
                 [("id", get_or "id" PNone e); ("type", get_or "type" PNone e);
                  ("created_at", get_or "createdAt" PNone e);
                  ("last_updated", get_or "lastUpdated" PNone e);
                  ("created_by", get_or "createdBy" PNone e);
                  ("modified_by", get_or "modifiedBy" PNone e);
                  ("timestamp", get_or "timestamp" PNone e);
                  ("associations", get_or "associations" (PDict []) d)] ;;
     Return (PDict fields)).
Proof.
  intros He Hm. unfold format_engagement.
  rewrite (py_get_section _ _ _ He), (py_get_section _ _ _ Hm). cbn [rbind].
  rewrite shared_fields_dict. reflexivity.
Qed.

(** X4. A NOTE gets its [metadata.body] as content, the empty string when
    the body is missing; the content is that value itself, not an
    object. *)
Theorem note_content_is_body :
  forall (d e md : list (string * pyval)),
    section_of "engagement" d = Some e ->
    lookup "type" e = Some (PStr "NOTE") ->
    section_of "metadata" d = Some md ->
    summary_content (format_engagement (PDict d))
    = Some (match lookup "body" md with
            | Some body => body
            | None => PStr ""
            end).
Proof.
  intros d e md He Ht Hm. rewrite (format_known _ _ _ He Hm).
  unfold add_content. rewrite !py_get_dict.
  rewrite (get_or_present _ _ _ _ Ht). reflexivity.
Qed.

Lemma note_content_is_body_witness :
  summary_content (format_engagement (PDict (response_of "NOTE" [])))
  = Some (PStr "").
Proof.
  exact (note_content_is_body (response_of "NOTE" [])
           [("id", PInt 7); ("type", PStr "NOTE")] []
           eq_refl eq_refl eq_refl).
Defined.

(** X5. A TASK always gets a content object with the keys subject, body,
    status and for_object_type (read from [forObjectType]), each the
    source value or the empty string. *)
Theorem task_content_shape :
  forall (d e md : list (string * pyval)),
    section_of "engagement" d = Some e ->
    lookup "type" e = Some (PStr "TASK") ->
    section_of "metadata" d = Some md ->
    summary_content (format_engagement (PDict d))
    = Some (PDict [("subject", get_or "subject" (PStr "") md);
                   ("body", get_or "body" (PStr "") md);
                   ("status", get_or "status" (PStr "") md);
                   ("for_object_type", get_or "forObjectType" (PStr "") md)]).
Proof.
  intros d e md He Ht Hm. rewrite (format_known _ _ _ He Hm).
  unfold add_content. rewrite !py_get_dict.
  rewrite (get_or_present _ _ _ _ Ht). reflexivity.
Qed.

Lemma task_content_shape_witness :
  summary_content
    (format_engagement (PDict (response_of "TASK" [("status", PStr "DONE")])))
  = Some (PDict [("subject", PStr ""); ("body", PStr "");
                 ("status", PStr "DONE"); ("for_object_type", PStr "")]).
Proof.
  exact (task_content_shape (response_of "TASK" [("status", PStr "DONE")])
           [("id", PInt 7); ("type", PStr "TASK")] [("status", PStr "DONE")]
           eq_refl eq_refl eq_refl).
Defined.

(** X6. A MEETING always gets a content object with the keys title, body,
    start_time, end_time and internal_notes; a missing [startTime] or
    [endTime] gives [None], the other missing fields the empty string. *)
Theorem meeting_content_shape :
  forall (d e md : list (string * pyval)),
    section_of "engagement" d = Some e ->
    lookup "type" e = Some (PStr "MEETING") ->
    section_of "metadata" d = Some md ->
    summary_content (format_engagement (PDict d))
    = Some (PDict [("title", get_or "title" (PStr "") md);
                   ("body", get_or "body" (PStr "") md);
                   ("start_time", get_or "startTime" PNone md);
                   ("end_time", get_or "endTime" PNone md);
                   ("internal_notes",
                    get_or "internalMeetingNotes" (PStr "") md)]).
Proof.
  intros d e md He Ht Hm. rewrite (format_known _ _ _ He Hm).
  unfold add_content. rewrite !py_get_dict.
  rewrite (get_or_present _ _ _ _ Ht). reflexivity.
Qed.

Lemma meeting_content_shape_witness :
  summary_content (format_engagement (PDict (response_of "MEETING" [])))
  = Some (PDict [("title", PStr ""); ("body", PStr "");
                 ("start_time", PNone); ("end_time", PNone);
                 ("internal_notes", PStr "")]).
Proof.
  exact (meeting_content_shape (response_of "MEETING" [])
           [("id", PInt 7); ("type", PStr "MEETING")] []
           eq_refl eq_refl eq_refl).
Defined.

(** X7. A CALL always gets a content object with the keys body,
    from_number, to_number, duration_ms, status and disposition; a
    missing [durationMilliseconds] gives [None], the other missing
    fields the empty string. *)
Theorem call_content_shape :
  forall (d e md : list (string * pyval)),
    section_of "engagement" d = Some e ->
    lookup "type" e = Some (PStr "CALL") ->
    section_of "metadata" d = Some md ->
    summary_content (format_engagement (PDict d))
    = Some (PDict [("body", get_or "body" (PStr "") md);
                   ("from_number", get_or "fromNumber" (PStr "") md);
                   ("to_number", get_or "toNumber" (PStr "") md);
                   ("duration_ms", get_or "durationMilliseconds" PNone md);
                   ("status", get_or "status" (PStr "") md);
                   ("disposition", get_or "disposition" (PStr "") md)]).
Proof.
  intros d e md He Ht Hm. rewrite (format_known _ _ _ He Hm).
  unfold add_content. rewrite !py_get_dict.
  rewrite (get_or_present _ _ _ _ Ht). reflexivity.
Qed.

Lemma call_content_shape_witness :
  summary_content
    (format_engagement
       (PDict (response_of "CALL" [("durationMilliseconds", PInt 1500)])))
  = Some (PDict [("body", PStr ""); ("from_number", PStr "");
                 ("to_number", PStr ""); ("duration_ms", PInt 1500);
                 ("status", PStr ""); ("disposition", PStr "")]).
Proof.
  exact (call_content_shape
           (response_of "CALL" [("durationMilliseconds", PInt 1500)])
           [("id", PInt 7); ("type", PStr "CALL")]
           [("durationMilliseconds", PInt 1500)]
           eq_refl eq_refl eq_refl).
Defined.

(** X8. An engagement of a known type whose [metadata] is present but is
    not a dictionary (for instance null) cannot be formatted: the first
    [metadata.get] raises [AttributeError]. *)
Theorem known_type_needs_dict_metadata :
  forall (d e : list (string * pyval)) (m : pyval),
    section_of "engagement" d = Some e ->
    known_type (get_or "type" PNone e) = true ->
    lookup "metadata" d = Some m ->
    is_dict m = false ->
    format_engagement (PDict d) = Raise (no_attribute m "get").
Proof.
  intros d e m He Hk Hm Hd. unfold format_engagement.
  rewrite (py_get_section _ _ _ He). rewrite py_get_dict. cbn [rbind].
  rewrite shared_fields_dict. cbn [rbind].
  rewrite (get_or_present _ _ _ _ Hm).
  unfold add_content. rewrite !py_get_dict. cbn [rbind].
  unfold known_type in Hk.
  destruct (eq_str (get_or "type" PNone e) "NOTE");
    [destruct m; try discriminate; reflexivity|].
  destruct (eq_str (get_or "type" PNone e) "EMAIL");
    [destruct m; try discriminate; reflexivity|].
  destruct (eq_str (get_or "type" PNone e) "TASK");
    [destruct m; try discriminate; reflexivity|].
  destruct (eq_str (get_or "type" PNone e) "MEETING");
    [destruct m; try discriminate; reflexivity|].
  destruct (eq_str (get_or "type" PNone e) "CALL");
    [destruct m; try discriminate; reflexivity|].
  discriminate Hk.
Qed.

Lemma known_type_needs_dict_metadata_witness :
  format_engagement
    (PDict [("engagement", PDict [("type", PStr "NOTE")]); ("metadata", PNone)])
  = Raise (mkExn AttributeError "'NoneType' object has no attribute 'get'").
Proof.
  exact (known_type_needs_dict_metadata
           [("engagement", PDict [("type", PStr "NOTE")]); ("metadata", PNone)]
           [("type", PStr "NOTE")] PNone eq_refl eq_refl eq_refl eq_refl).
Defined.

(** X9. A detail response that is not a JSON object, or whose [engagement]
    is present but is not one, cannot be formatted: [AttributeError] is
    raised for the value without [get]. *)
Theorem malformed_response_raises :
  (forall r, is_dict r = false ->
             format_engagement r = Raise (no_attribute r "get"))
  /\ (forall d v,
        lookup "engagement" d = Some v -> is_dict v = false ->
        format_engagement (PDict d) = Raise (no_attribute v "get")).
Proof.
  split.
  - intros r Hr. destruct r; try discriminate; reflexivity.
  - intros d v Hv Hd. unfold format_engagement. rewrite !py_get_dict.
    cbn [rbind]. rewrite (get_or_present _ _ _ _ Hv).
    destruct v; try discriminate; reflexivity.
Qed.

Lemma malformed_response_raises_witness :
  format_engagement (PList [])
  = Raise (mkExn AttributeError "'list' object has no attribute 'get'").
Proof.
  exact (proj1 malformed_response_raises (PList []) eq_refl).
Defined.

End MoreFormatFacts.

(** ** Further facts about runs *)

Module MoreRunFacts.

Import JsonFacts RunFacts FormatFacts.

Lemma collect_cons {World : Type} (client : Client World) id rest acc w :
  collect client (id :: rest) acc w
  = match fetch_detail client id w with
    | (Return v, w1) =>
        match format_engagement v with
        | Return a => collect client rest (acc ++ [a])%list w1
        | Raise e => (Raise e, w1)
        end
    | (Raise e, w1) => (Raise e, w1)
    end.
Proof.
  cbn [collect]. unfold bind, lift.
  destruct (fetch_detail client id w) as [[v|e] w1]; [|reflexivity].
  destruct (format_engagement v); reflexivity.
Qed.

Section WithAnyClient.
Variable World : Type.
Variable client : Client World.
Variable float_repr : spec_float -> string.

(** A loop that completes has appended, to what was there, the summaries
    of its identifiers: each the formatting of the detail fetched for it,
    in the order of the identifiers. *)
Lemma collect_fetched ids :
  forall acc w acts w',
    collect client ids acc w = (Return acts, w') ->
    exists news, acts = (acc ++ news)%list /\ fetched client ids w news w'.
Proof.
  induction ids as [|id ids IH]; intros acc w acts w' H.
  - injection H as <- <-. exists []. rewrite app_nil_r. split.
    + reflexivity.
    + constructor.
  - rewrite collect_cons in H.
    destruct (fetch_detail client id w) as [[v|e] w1] eqn:Hf; [|discriminate].
    destruct (format_engagement v) as [a|e] eqn:Hv; [|discriminate].
    apply IH in H. destruct H as [news [-> Hrest]].
    exists (a :: news). rewrite <- app_assoc. split; [reflexivity|].
    now apply (fetched_cons _ _ id ids w v w1 a news w').
Qed.

Lemma fetched_length ids w acts w' :
  fetched client ids w acts w' -> List.length acts = List.length ids.
Proof. induction 1; simpl; congruence. Qed.

End WithAnyClient.

(** X10. Every call returns a text, and that text is one of two things:
    the error object of some exception, or the serialization of the
    normalized list of summaries in which the i-th summary is the
    formatting of the detail fetched for the i-th association link of
    the page, the details being fetched one after the other in page
    order. *)
Theorem get_company_activity_outcome :
  forall (World : Type) (client : Client World)
         (float_repr : spec_float -> string) (company_id : string) (w : World),
  exists s w',
    get_company_activity client float_repr company_id w = (Return s, w')
    /\ ((exists e, s = error_text (exn_str e))
        \/ (exists page w1 links activities,
               get_page client "companies" company_id "engagements" 500 w
               = (Return page, w1)
               /\ (results page = Some (ResultsList links)
                   \/ (results page = None /\ links = []))
               /\ fetched client (map to_object_id links) w1 activities w'
               /\ List.length activities = List.length links
               /\ dumps float_repr
                    (convert_datetime_fields (local_offset client w')
                       (PList activities))
                  = Return s)).
Proof.
  intros World client float_repr company_id w.
  destruct (try_block client float_repr company_id w) as [[s|e] w'] eqn:H.
  - exists s, w'. split.
    + unfold get_company_activity. now rewrite H.
    + right. unfold try_block, bind, lift in H.
      destruct (get_page client "companies" company_id "engagements" 500 w)
        as [[page|e] w1] eqn:Hp; [|discriminate].
      destruct (engagement_ids_of page) as [ids|e] eqn:Hids; [|discriminate].
      destruct (collect client ids [] w1) as [[acts|e] w2] eqn:Hc;
        [|discriminate].
      injection H as Hd <-.
      destruct (collect_fetched _ client _ _ _ _ _ Hc) as [news [-> Hf]].
      rewrite engagement_ids_of_map in Hids.
      destruct (results page) as [[links| |tp]|] eqn:Hres;
        try discriminate; injection Hids as <-.
      * exists page, w1, links, news.
        split; [reflexivity|]. split; [now left|]. split; [exact Hf|].
        split; [|exact Hd].
        rewrite (fetched_length _ _ _ _ _ _ Hf). apply length_map.
      * exists page, w1, [], news.
        split; [reflexivity|]. split; [now right|]. split; [exact Hf|].
        split; [|exact Hd].
        now rewrite (fetched_length _ _ _ _ _ _ Hf).
  - exists (error_text (exn_str e)), w'. split.
    + now apply handler_catches.
    + left. eauto.
Qed.

(** Two links: the summaries come in the order of the page, each from
    the detail of its own link. *)
Example two_links_in_page_order :
  get_company_activity
    (mock_client
       (Return {| results :=
                    Some (ResultsList [ {| to_object_id := "e2" |};
                                        {| to_object_id := "e1" |} ]) |})
       (fun path =>
          Return {| json :=
            Return (PDict [("engagement",
                            PDict [("id", PStr path); ("type", PStr "NOTE")])])
          |}))
    no_floats "123" []
  = (dumps no_floats
       (PList [PDict [("id", PStr "/engagements/v1/engagements/e2");
                      ("type", PStr "NOTE"); ("created_at", PNone);
                      ("last_updated", PNone); ("created_by", PNone);
                      ("modified_by", PNone); ("timestamp", PNone);
                      ("associations", PDict []); ("content", PStr "")];
               PDict [("id", PStr "/engagements/v1/engagements/e1");
                      ("type", PStr "NOTE"); ("created_at", PNone);
                      ("last_updated", PNone); ("created_by", PNone);
                      ("modified_by", PNone); ("timestamp", PNone);
                      ("associations", PDict []); ("content", PStr "")]]),
     ["get_page companies 123"; "GET /engagements/v1/engagements/e2";
      "GET /engagements/v1/engagements/e1"]).
Proof. reflexivity. Qed.

Lemma mock_fetch_detail page detail id w :
  fetch_detail (mock_client page detail) id w
  = (rbind (detail ("/engagements/v1/engagements/" ++ id)) json,
     (w ++ [detail_request id])%list).
Proof.
  unfold fetch_detail, bind, lift, detail_request. cbn [api_request mock_client].
  destruct (detail ("/engagements/v1/engagements/" ++ id)); reflexivity.
Qed.

(** The requests a mock client logs during the loop. *)
Lemma mock_collect_log page detail ids :
  forall acc w r w',
    collect (mock_client page detail) ids acc w = (r, w') ->
    exists k,
      k <= List.length ids
      /\ w' = (w ++ map detail_request (firstn k ids))%list
      /\ (forall acts, r = Return acts -> k = List.length ids).
Proof.
  induction ids as [|id ids IH]; intros acc w r w' H.
  - injection H as <- <-. exists 0. simpl. rewrite app_nil_r. auto.
  - rewrite collect_cons, mock_fetch_detail in H.
    destruct (rbind (detail ("/engagements/v1/engagements/" ++ id)) json)
      as [v|e].
    + destruct (format_engagement v) as [a|e].
      * apply IH in H. destruct H as [k [Hk [-> Hall]]].
        exists (S k). simpl. rewrite <- app_assoc. simpl.
        repeat split; [lia | intros acts Hr; f_equal; eauto].
      * injection H as <- <-. exists 1. simpl.
        repeat split; [lia | discriminate].
    + injection H as <- <-. exists 1. simpl.
      repeat split; [lia | discriminate].
Qed.

(** The [try] block against a logging mock. *)
Lemma mock_try_block page detail float_repr company_id w :
  try_block (mock_client (Return page) detail) float_repr company_id w
  = match engagement_ids_of page with
    | Raise e => (Raise e, (w ++ [association_request company_id])%list)
    | Return ids =>
        match collect (mock_client (Return page) detail) ids []
                (w ++ [association_request company_id])%list with
        | (Return acts, w') =>
            (dumps float_repr (convert_datetime_fields "+0000" (PList acts)),
             w')
        | (Raise e, w') => (Raise e, w')
        end
    end.
Proof.
  unfold try_block, bind, lift. cbn [get_page mock_client].
  change ("get_page " ++ "companies" ++ " " ++ company_id)
    with (association_request company_id).
  destruct (engagement_ids_of page) as [ids|e]; [|reflexivity].
  destruct (collect _ ids [] _) as [[acts|e] w']; reflexivity.
Qed.

Lemma raised_is_not_a_list {World : Type} (client : Client World)
      float_repr company_id w e w' l s :
  try_block client float_repr company_id w = (Raise e, w') ->
  dumps float_repr (PList l) = Return s ->
  fst (get_company_activity client float_repr company_id w) <> Return s.
Proof.
  intros H Hl Hs. rewrite (handler_catches _ _ _ _ _ _ _ H) in Hs.
  apply Return_inj in Hs. subst s.
  exact (error_text_not_list _ _ _ _ Hl eq_refl).
Qed.

(** X11. The requests of a call, as a logging client records them: the
    association request, then one detail request per linked identifier
    in page order (an identifier linked twice is requested twice), up to
    and including the first one that fails; each at the fixed path. When
    the call returns a list every identifier was requested, once per
    link. *)
Theorem requests_follow_page_order :
  forall (page : Page) (detail : string -> result Response)
         (float_repr : spec_float -> string) (company_id : string)
         (w : list string),
  exists k,
    k <= List.length (linked_ids page)
    /\ snd (get_company_activity (mock_client (Return page) detail)
              float_repr company_id w)
       = (w ++ association_request company_id
            :: map detail_request (firstn k (linked_ids page)))%list
    /\ (forall l s,
          dumps float_repr (PList l) = Return s ->
          fst (get_company_activity (mock_client (Return page) detail)
                 float_repr company_id w) = Return s ->
          k = List.length (linked_ids page)).
Proof.
  intros page detail float_repr company_id w.
  pose proof (mock_try_block page detail float_repr company_id w) as Htb.
  unfold linked_ids.
  destruct (engagement_ids_of page) as [ids|e0].
  - destruct (collect (mock_client (Return page) detail) ids []
                (w ++ [association_request company_id])%list)
      as [r w'] eqn:Hc.
    destruct (mock_collect_log _ _ _ _ _ _ _ Hc) as [k [Hk [-> Hall]]].
    exists k. split; [exact Hk|].
    rewrite <- app_assoc in Htb. cbn [app] in Htb.
    destruct r as [acts|e].
    + split.
      * unfold get_company_activity. rewrite Htb.
        destruct (dumps float_repr _) as [s|e] eqn:Hd; [reflexivity|].
        destruct (exn_cls e); reflexivity.
      * intros l s _ _. now apply (Hall acts).
    + split.
      * rewrite (handler_catches _ _ _ _ _ _ _ Htb). reflexivity.
      * intros l s Hl Hs. exfalso.
        exact (raised_is_not_a_list _ _ _ _ _ _ _ _ Htb Hl Hs).
  - exists 0. split; [simpl; lia|]. split.
    + rewrite (handler_catches _ _ _ _ _ _ _ Htb). reflexivity.
    + intros l s Hl Hs. exfalso.
      exact (raised_is_not_a_list _ _ _ _ _ _ _ _ Htb Hl Hs).
Qed.

End MoreRunFacts.

(** ** Facts about the companion operations and the tool dispatch *)

Module CompanionFacts.

Import NormalizerFacts JsonFacts RunFacts FormatFacts MoreFormatFacts.

Lemma py_subscript_present d k v :
  lookup k d = Some v -> py_subscript d k = Return v.
Proof. unfold py_subscript. now intros ->. Qed.

Lemma py_subscript_absent d k :
  lookup k d = None -> py_subscript d k = Raise (key_error k).
Proof. unfold py_subscript. now intros ->. Qed.

Lemma map_convert offset (records : list CrmObject) :
  convert_datetime_fields offset (PList (map to_dict records))
  = PList (map (fun r => convert_datetime_fields offset (to_dict r)) records).
Proof. simpl. now rewrite map_map. Qed.

Section WithCrm.
Variable World : Type.
Variable crm : Crm World.
Variable float_repr : spec_float -> string.

Lemma error_object_handler_returns e (w : World) :
  error_object_handler float_repr e w = (Return (error_text (exn_str e)), w).
Proof.
  unfold error_object_handler, lift. destruct (exn_cls e);
    now rewrite dumps_error.
Qed.

(** What a read operation returns, given the outcome of its fetch. *)
Lemma read_outcome (get_all : M World (list CrmObject)) w :
  match get_all w with
  | (Return records, w') =>
      exists s,
        try_except (bind get_all (dump_records crm float_repr))
          (error_object_handler float_repr) w = (Return s, w')
        /\ dumps float_repr
             (PList (map (fun r =>
                            convert_datetime_fields
                              (local_offset (base crm) w') (to_dict r))
                         records))
           = Return s
  | (Raise e, w') =>
      try_except (bind get_all (dump_records crm float_repr))
        (error_object_handler float_repr) w
      = (Return (error_text (exn_str e)), w')
  end.
Proof.
  unfold try_except, bind.
  destruct (get_all w) as [[records|e] w'].
  - unfold dump_records. rewrite map_convert.
    destruct (dumps_plain float_repr _
                (convert_plain (local_offset (base crm) w')
                   (PList (map to_dict records))))
      as [s Hs].
    rewrite map_convert in Hs. rewrite Hs. exists s. split; reflexivity.
  - apply error_object_handler_returns.
Qed.

End WithCrm.

(** X12. [get_contacts] never raises. When the fetch succeeds it returns the
    serialization of the list holding, for each contact in fetch order,
    its normalized dictionary, also when the records hold [datetime] or
    [tzlocal] values; when the fetch raises [e] it returns the error
    object of [e]. *)
Theorem get_contacts_outcome :
  forall (World : Type) (crm : Crm World)
         (float_repr : spec_float -> string) (w : World),
    match contacts_get_all crm w with
    | (Return records, w') =>
        exists s,
          get_contacts crm float_repr w = (Return s, w')
          /\ dumps float_repr
               (PList (map (fun r =>
                              convert_datetime_fields
                                (local_offset (base crm) w') (to_dict r))
                           records))
             = Return s
    | (Raise e, w') =>
        get_contacts crm float_repr w = (Return (error_text (exn_str e)), w')
    end.
Proof.
  intros World crm float_repr w.
  exact (read_outcome World crm float_repr (contacts_get_all crm) w).
Qed.

(** X13. [get_companies] never raises. When the fetch succeeds it returns
    the serialization of the list holding, for each company in fetch
    order, its normalized dictionary; when the fetch raises [e] it
    returns the error object of [e]. *)
Theorem get_companies_outcome :
  forall (World : Type) (crm : Crm World)
         (float_repr : spec_float -> string) (w : World),
    match companies_get_all crm w with
    | (Return records, w') =>
        exists s,
          get_companies crm float_repr w = (Return s, w')
          /\ dumps float_repr
               (PList (map (fun r =>
                              convert_datetime_fields
                                (local_offset (base crm) w') (to_dict r))
                           records))
             = Return s
    | (Raise e, w') =>
        get_companies crm float_repr w = (Return (error_text (exn_str e)), w')
    end.
Proof.
  intros World crm float_repr w.
  exact (read_outcome World crm float_repr (companies_get_all crm) w).
Qed.

Example get_contacts_with_datetime :
  get_contacts sample_crm no_floats []
  = (Return ("[{" ++ encode_str "id" ++ ": " ++ encode_str "1" ++ ", "
             ++ encode_str "properties" ++ ": {" ++ encode_str "firstname"
             ++ ": " ++ encode_str "Ann" ++ "}, " ++ encode_str "created_at"
             ++ ": " ++ encode_str "2024-01-01T00:00:00+00:00" ++ "}]"),
     ["contacts.get_all"]).
Proof. reflexivity. Qed.


Section Dispatch.
Variable World : Type.
Variable crm : Crm World.
Variable float_repr : spec_float -> string.
Variable dict_str : pyval -> string.
Variable update_other :
  list (string * pyval) -> pyval -> result (list (string * pyval)).

Lemma answers_ret t : answers_text (World := World) (ret (text_content t)).
Proof. intros w l w' [= <- _]. eauto. Qed.

Lemma answers_raise e : answers_text (World := World) (raise e).
Proof. intros w l w' H. discriminate H. Qed.

Lemma answers_bind {A : Type} (c : M World A) k :
  (forall a, answers_text (k a)) -> answers_text (bind c k).
Proof.
  intros Hk w l w' H. unfold bind in H.
  destruct (c w) as [[a|e] w1]; [|discriminate]. exact (Hk a _ _ _ H).
Qed.

Lemma answers_try body handler :
  answers_text (World := World) body ->
  (forall e, answers_text (handler e)) ->
  answers_text (try_except body handler).
Proof.
  intros Hb Hh w l w' H. unfold try_except in H.
  destruct (body w) as [[a|e] w1] eqn:Hbody.
  - injection H as <- <-. exact (Hb _ _ _ Hbody).
  - exact (Hh e _ _ _ H).
Qed.

Lemma answers_api_error_handler e :
  answers_text (World := World) (api_error_handler e).
Proof.
  unfold api_error_handler.
  destruct (exn_cls e); (apply answers_ret || apply answers_raise).
Qed.

Lemma tool_error_handler_returns e (w : World) :
  tool_error_handler e w
  = (Return (text_content
               ((match exn_cls e with
                 | ApiException => "HubSpot API error: "
                 | _ => "Error: "
                 end) ++ exn_str e)), w).
Proof. unfold tool_error_handler. destruct (exn_cls e); reflexivity. Qed.

Lemma answers_create_contact arguments :
  answers_text (create_contact crm dict_str update_other arguments).
Proof.
  unfold create_contact. destruct arguments as [[|kv args]|];
    try apply answers_raise.
  repeat (apply answers_bind; intros ?).
  apply answers_try; [|apply answers_api_error_handler].
  apply answers_bind. intros sr.
  destruct (Z.ltb 0 (total sr)).
  - apply answers_bind. intros ?. apply answers_ret.
  - repeat (apply answers_bind; intros ?). apply answers_ret.
Qed.

Lemma answers_create_company arguments :
  answers_text (create_company crm dict_str update_other arguments).
Proof.
  unfold create_company. destruct arguments as [[|kv args]|];
    try apply answers_raise.
  apply answers_bind. intros ?.
  apply answers_try; [|apply answers_api_error_handler].
  apply answers_bind. intros sr.
  destruct (Z.ltb 0 (total sr)).
  - apply answers_bind. intros ?. apply answers_ret.
  - repeat (apply answers_bind; intros ?). apply answers_ret.
Qed.

Lemma answers_company_activity arguments :
  answers_text (company_activity crm float_repr arguments).
Proof.
  unfold company_activity. destruct arguments as [[|kv args]|];
    try apply answers_raise.
  repeat (apply answers_bind; intros ?). apply answers_ret.
Qed.

Lemma answers_dispatch name arguments :
  answers_text
    (if String.eqb name "hubspot_get_contacts" then
       bind (get_contacts crm float_repr)
            (fun results => ret (text_content results))
     else if String.eqb name "hubspot_create_contact" then
       create_contact crm dict_str update_other arguments
     else if String.eqb name "hubspot_get_companies" then
       bind (get_companies crm float_repr)
            (fun results => ret (text_content results))
     else if String.eqb name "hubspot_create_company" then
       create_company crm dict_str update_other arguments
     else if String.eqb name "hubspot_get_company_activity" then
       company_activity crm float_repr arguments
     else raise (value_error ("Unknown tool: " ++ name))).
Proof.
  destruct (String.eqb name "hubspot_get_contacts");
    [apply answers_bind; intros ?; apply answers_ret|].
  destruct (String.eqb name "hubspot_create_contact");
    [apply answers_create_contact|].
  destruct (String.eqb name "hubspot_get_companies");
    [apply answers_bind; intros ?; apply answers_ret|].
  destruct (String.eqb name "hubspot_create_company");
    [apply answers_create_company|].
  destruct (String.eqb name "hubspot_get_company_activity");
    [apply answers_company_activity|].
  apply answers_raise.
Qed.

(** A name that matches none of the five branches. *)
Lemma unmatched_name name arguments (w : World) :
  String.eqb name "hubspot_get_contacts" = false ->
  String.eqb name "hubspot_create_contact" = false ->
  String.eqb name "hubspot_get_companies" = false ->
  String.eqb name "hubspot_create_company" = false ->
  String.eqb name "hubspot_get_company_activity" = false ->
  handle_call_tool crm float_repr dict_str update_other name arguments w
  = (Return (text_content ("Error: Unknown tool: " ++ name)), w).
Proof.
  intros H1 H2 H3 H4 H5. unfold handle_call_tool, try_except.
  rewrite H1, H2, H3, H4, H5. reflexivity.
Qed.

End Dispatch.

(** X14. [handle_call_tool] never raises: whatever the tool name, the
    arguments and the client library do, it returns a list of exactly
    one content, of type text. *)
Theorem handle_call_tool_always_answers :
  forall (World : Type) (crm : Crm World)
         (float_repr : spec_float -> string) (dict_str : pyval -> string)
         (update_other :
            list (string * pyval) -> pyval -> result (list (string * pyval)))
         (name : string) (arguments : option (list (string * pyval)))
         (w : World),
  exists t w',
    handle_call_tool crm float_repr dict_str update_other name arguments w
    = (Return [ {| type := "text"; text := t |} ], w').
Proof.
  intros World crm float_repr dict_str update_other name arguments w.
  unfold handle_call_tool, try_except.
  match goal with
  | |- context [match ?body w with _ => _ end] =>
      destruct (body w) as [[l|e] w'] eqn:H
  end.
  - destruct (answers_dispatch World crm float_repr dict_str update_other
                name arguments _ _ _ H) as [t ->].
    exists t, w'. reflexivity.
  - rewrite tool_error_handler_returns. eexists. eexists. reflexivity.
Qed.

(** X15. A name that [handle_list_tools] does not list is answered with the
    text "Error: Unknown tool: <name>", whatever the arguments, and no
    call reaches the client library. *)
Theorem unlisted_tool_is_reported :
  forall (World : Type) (crm : Crm World)
         (float_repr : spec_float -> string) (dict_str : pyval -> string)
         (update_other :
            list (string * pyval) -> pyval -> result (list (string * pyval)))
         (name : string) (arguments : option (list (string * pyval)))
         (w : World),
    ~ In name (map tool_name handle_list_tools) ->
    handle_call_tool crm float_repr dict_str update_other name arguments w
    = (Return (text_content ("Error: Unknown tool: " ++ name)), w).
Proof.
  intros World crm float_repr dict_str update_other name arguments w Hn.
  apply unmatched_name;
    match goal with
    | |- String.eqb ?n ?l = false =>
        destruct (String.eqb_spec n l);
        [exfalso; apply Hn; subst n; simpl; tauto | reflexivity]
    end.
Qed.

Lemma unlisted_tool_is_reported_witness :
  handle_call_tool sample_crm no_floats no_dict_str no_update_other
    "hubspot_delete_contact" None []
  = (Return (text_content "Error: Unknown tool: hubspot_delete_contact"), []).
Proof.
  apply (unlisted_tool_is_reported _ sample_crm no_floats no_dict_str
           no_update_other "hubspot_delete_contact" None []).
  simpl. intros H. repeat (destruct H as [H|H]; [discriminate H|]). exact H.
Defined.


Lemma text_content_inj a b : text_content a = text_content b -> a = b.
Proof. now intros [=]. Qed.

Lemma read_text_head {World : Type} (crm : Crm World) float_repr
      (get_all : M World (list CrmObject)) (w : World) :
  exists s w',
    try_except (bind get_all (dump_records crm float_repr))
      (error_object_handler float_repr) w = (Return s, w')
    /\ exists c r, s = String c r /\ (c = "["%char \/ c = "{"%char).
Proof.
  pose proof (read_outcome World crm float_repr get_all w) as H.
  destruct (get_all w) as [[records|e] w'].
  - destruct H as [s [Hrun Hd]]. exists s, w'. split; [exact Hrun|].
    destruct (dumps_list_head _ _ _ Hd) as [r ->]. eauto.
  - exists (error_text (exn_str e)), w'. split; [exact H|].
    destruct (error_text_head (exn_str e)) as [r ->]. eauto.
Qed.

(** X16. Every tool that [handle_list_tools] lists is dispatched: called
    without arguments it is never answered with the unknown-tool text. *)
Theorem listed_tool_is_dispatched :
  forall (World : Type) (crm : Crm World)
         (float_repr : spec_float -> string) (dict_str : pyval -> string)
         (update_other :
            list (string * pyval) -> pyval -> result (list (string * pyval)))
         (name : string) (w : World),
    In name (map tool_name handle_list_tools) ->
    fst (handle_call_tool crm float_repr dict_str update_other name None w)
    <> Return (text_content ("Error: Unknown tool: " ++ name)).
Proof.
  intros World crm float_repr dict_str update_other name w Hin.
  simpl in Hin.
  destruct Hin as [<- | [<- | [<- | [<- | [<- | []]]]]];
    try (intros H; discriminate H).
  - unfold handle_call_tool, try_except, bind. cbn [String.eqb Ascii.eqb Bool.eqb].
    destruct (read_text_head crm float_repr (contacts_get_all crm) w)
      as [s [w' [Hrun [c [r [-> Hc]]]]]].
    unfold get_contacts. rewrite Hrun. cbn [fst ret]. intros H.
    apply Return_inj, text_content_inj in H.
    destruct Hc as [-> | ->]; discriminate H.
  - unfold handle_call_tool, try_except, bind. cbn [String.eqb Ascii.eqb Bool.eqb].
    destruct (read_text_head crm float_repr (companies_get_all crm) w)
      as [s [w' [Hrun [c [r [-> Hc]]]]]].
    unfold get_companies. rewrite Hrun. cbn [fst ret]. intros H.
    apply Return_inj, text_content_inj in H.
    destruct Hc as [-> | ->]; discriminate H.
Qed.

Lemma listed_tool_is_dispatched_witness :
  fst (handle_call_tool sample_crm no_floats no_dict_str no_update_other
         "hubspot_get_companies" None [])
  <> Return (text_content "Error: Unknown tool: hubspot_get_companies").
Proof.
  apply (listed_tool_is_dispatched _ sample_crm no_floats no_dict_str
           no_update_other "hubspot_get_companies" []).
  simpl. tauto.
Defined.

(** X17. The three tools that take arguments answer a call without
    arguments, or with an empty dictionary of them, with "Error: Missing
    arguments for ...", and make no call to the client library. *)
Theorem missing_arguments_are_reported :
  forall (World : Type) (crm : Crm World)
         (float_repr : spec_float -> string) (dict_str : pyval -> string)
         (update_other :
            list (string * pyval) -> pyval -> result (list (string * pyval)))
         (arguments : option (list (string * pyval))) (w : World),
    arguments = None \/ arguments = Some [] ->
    handle_call_tool crm float_repr dict_str update_other
      "hubspot_create_contact" arguments w
    = (Return (text_content "Error: Missing arguments for create_contact"), w)
    /\ handle_call_tool crm float_repr dict_str update_other
         "hubspot_create_company" arguments w
       = (Return (text_content "Error: Missing arguments for create_company"),
          w)
    /\ handle_call_tool crm float_repr dict_str update_other
         "hubspot_get_company_activity" arguments w
       = (Return
            (text_content "Error: Missing arguments for get_company_activity"),
          w).
Proof.
  intros World crm float_repr dict_str update_other arguments w [-> | ->];
    repeat split.
Qed.

Lemma missing_arguments_are_reported_witness :
  handle_call_tool sample_crm no_floats no_dict_str no_update_other
    "hubspot_create_contact" (Some []) []
  = (Return (text_content "Error: Missing arguments for create_contact"), []).
Proof.
  exact (proj1 (missing_arguments_are_reported _ sample_crm no_floats
                  no_dict_str no_update_other (Some []) []
                  (or_intror eq_refl))).
Defined.

(** X18. The keys a tool's input schema lists as required are the keys its
    branch reads with a subscript: when one of them is missing from
    non-empty arguments, the answer is "Error: " followed by a missing
    required key between quotes, and no call reaches the client
    library. *)
Theorem missing_required_key_is_reported :
  forall (World : Type) (crm : Crm World)
         (float_repr : spec_float -> string) (dict_str : pyval -> string)
         (update_other :
            list (string * pyval) -> pyval -> result (list (string * pyval)))
         (tool : Tool) (k : string) (arguments : list (string * pyval))
         (w : World),
    In tool handle_list_tools ->
    In k (required_keys tool) ->
    arguments <> [] ->
    lookup k arguments = None ->
    exists k',
      In k' (required_keys tool)
      /\ lookup k' arguments = None
      /\ handle_call_tool crm float_repr dict_str update_other
           (tool_name tool) (Some arguments) w
         = (Return (text_content ("Error: '" ++ k' ++ "'")), w).
Proof.
  intros World crm float_repr dict_str update_other tool k arguments w
         Ht Hk Hne Hl.
  destruct arguments as [|kv args]; [congruence|].
  simpl in Ht.
  destruct Ht as [<- | [<- | [<- | [<- | [<- | []]]]]]; simpl in Hk;
    try contradiction.
  - destruct (lookup "firstname" (kv :: args)) as [fn|] eqn:Hfn.
    + exists "lastname". split; [simpl; tauto|].
      assert (Hln : lookup "lastname" (kv :: args) = None).
      { destruct Hk as [<- | [<- | []]]; congruence. }
      split; [exact Hln|].
      unfold handle_call_tool, try_except, create_contact, bind, lift.
      cbn [String.eqb Ascii.eqb Bool.eqb].
      rewrite (py_subscript_present _ _ _ Hfn), (py_subscript_absent _ _ Hln).
      reflexivity.
    + exists "firstname". split; [simpl; tauto|]. split; [exact Hfn|].
      unfold handle_call_tool, try_except, create_contact, bind, lift.
      cbn [String.eqb Ascii.eqb Bool.eqb].
      rewrite (py_subscript_absent _ _ Hfn). reflexivity.
  - destruct Hk as [<- | []]. exists "name". split; [simpl; tauto|].
    split; [exact Hl|].
    unfold handle_call_tool, try_except, create_company, bind, lift.
    cbn [String.eqb Ascii.eqb Bool.eqb].
    rewrite (py_subscript_absent _ _ Hl). reflexivity.
  - destruct Hk as [<- | []]. exists "company_id". split; [simpl; tauto|].
    split; [exact Hl|].
    unfold handle_call_tool, try_except, company_activity, bind, lift.
    cbn [String.eqb Ascii.eqb Bool.eqb].
    rewrite (py_subscript_absent _ _ Hl). reflexivity.
Qed.

Lemma missing_required_key_is_reported_witness :
  handle_call_tool sample_crm no_floats no_dict_str no_update_other
    "hubspot_create_company" (Some [("properties", PDict [])]) []
  = (Return (text_content "Error: 'name'"), []).
Proof.
  destruct (missing_required_key_is_reported _ sample_crm no_floats
              no_dict_str no_update_other
              {| tool_name := "hubspot_create_company";
                 tool_description :=
                   "Create a new company in HubSpot (requires optional crm.objects.companies.write scope)";
                 inputSchema :=
                   PDict [("type", PStr "object");
                          ("properties",
                           PDict [("name", string_property "Company name");
                                  ("properties",
                                   object_property
                                     "Additional company properties")]);
                          ("required", PList [PStr "name"])] |}
              "name" [("properties", PDict [])] [])
    as [k' [Hk' [_ Hrun]]].
  - simpl. tauto.
  - simpl. tauto.
  - discriminate.
  - reflexivity.
  - simpl in Hk'. destruct Hk' as [<- | []]. exact Hrun.
Defined.


Lemma section_get_or k d s :
  section_of k d = Some s -> get_or k (PDict []) d = PDict s.
Proof.
  unfold section_of, get_or.
  destruct (lookup k d) as [[]|]; try discriminate; now intros [= ->].
Qed.

Lemma lookup_dict_set_same k v d : lookup k (dict_set k v d) = Some v.
Proof.
  induction d as [|[k' v'] r IH]; simpl.
  - now rewrite String.eqb_refl.
  - destruct (String.eqb k k') eqn:E; simpl; rewrite E; [reflexivity | exact IH].
Qed.

Lemma lookup_dict_set_other k k' v d :
  k' <> k -> lookup k' (dict_set k v d) = lookup k' d.
Proof.
  intros Hne. induction d as [|[k0 v0] r IH]; simpl.
  - destruct (String.eqb_spec k' k); [contradiction | reflexivity].
  - destruct (String.eqb_spec k k0) as [-> | Hk]; simpl.
    + destruct (String.eqb_spec k' k0); [contradiction | reflexivity].
    + destruct (String.eqb k' k0); [reflexivity | exact IH].
Qed.

Lemma lookup_not_in k d : ~ In k (keys d) -> lookup k d = None.
Proof.
  induction d as [|[k' v] r IH]; simpl; intros H; [reflexivity|].
  destruct (String.eqb_spec k k') as [-> | Hne]; [tauto|].
  apply IH. tauto.
Qed.

(** Updating sets every key of the other dictionary and keeps the rest. *)
Lemma lookup_dict_update other :
  forall d k,
    NoDup (keys other) ->
    lookup k (dict_update d other)
    = match lookup k other with
      | Some v => Some v
      | None => lookup k d
      end.
Proof.
  induction other as [|[k0 v0] r IH]; intros d k Hnd; [reflexivity|].
  inversion Hnd as [|? ? Hnotin Hr]; subst.
  change (dict_update d ((k0, v0) :: r))
    with (dict_update (dict_set k0 v0 d) r).
  rewrite (IH _ _ Hr). simpl.
  destruct (String.eqb_spec k k0) as [-> | Hne].
  - rewrite (lookup_not_in _ _ Hnotin). apply lookup_dict_set_same.
  - destruct (lookup k r); [reflexivity|].
    now apply lookup_dict_set_other.
Qed.

(** X21. The properties sent when a contact is created: what the additional
    [properties] argument holds for a key wins over the [firstname],
    [lastname] and [email] arguments; a key it does not hold keeps the
    value of those arguments, [email] being sent only when given. *)
Theorem contact_properties_precedence :
  forall (update_other :
            list (string * pyval) -> pyval -> result (list (string * pyval)))
         (arguments extra : list (string * pyval)) (firstname lastname : pyval),
    section_of "properties" arguments = Some extra ->
    NoDup (keys extra) ->
    exists properties,
      contact_properties update_other arguments firstname lastname
      = Return properties
      /\ forall k,
          lookup k properties
          = match lookup k extra with
            | Some v => Some v
            | None =>
                lookup k
                  ([("firstname", firstname); ("lastname", lastname)]
                     ++ match lookup "email" arguments with
                        | Some email => [("email", email)]
                        | None => []
                        end)%list
            end.
Proof.
  intros update_other arguments extra firstname lastname Hex Hnd.
  unfold contact_properties, py_in, py_subscript.
  exists (dict_update
            ([("firstname", firstname); ("lastname", lastname)]
               ++ match lookup "email" arguments with
                  | Some email => [("email", email)]
                  | None => []
                  end)%list extra).
  split.
  - unfold section_of in Hex.
    destruct (lookup "email" arguments) as [email|]; cbn [rbind];
      destruct (lookup "properties" arguments) as [[]|]; try discriminate;
        injection Hex as <-; reflexivity.
  - intros k. now apply lookup_dict_update.
Qed.

Lemma contact_properties_precedence_witness :
  exists properties,
    contact_properties no_update_other
      [("firstname", PStr "Ann"); ("lastname", PStr "Lee");
       ("email", PStr "ann@example.com");
       ("properties", PDict [("firstname", PStr "Anna");
                             ("company", PStr "Acme")])]
      (PStr "Ann") (PStr "Lee") = Return properties
    /\ lookup "firstname" properties = Some (PStr "Anna")
    /\ lookup "email" properties = Some (PStr "ann@example.com").
Proof.
  destruct (contact_properties_precedence no_update_other
              [("firstname", PStr "Ann"); ("lastname", PStr "Lee");
               ("email", PStr "ann@example.com");
               ("properties", PDict [("firstname", PStr "Anna");
                                     ("company", PStr "Acme")])]
              [("firstname", PStr "Anna"); ("company", PStr "Acme")]
              (PStr "Ann") (PStr "Lee") eq_refl)
    as [properties [Hp Hl]].
  - repeat constructor; simpl; intuition discriminate.
  - exists properties. split; [exact Hp|].
    split; [exact (Hl "firstname") | exact (Hl "email")].
Defined.

Section ContactTool.
Variable World : Type.
Variable crm : Crm World.
Variable float_repr : spec_float -> string.
Variable dict_str : pyval -> string.
Variable update_other :
  list (string * pyval) -> pyval -> result (list (string * pyval)).

(** What the inner handler lets through, the outer one catches. *)
Lemma api_then_tool e (w1 : World) :
  match api_error_handler e w1 with
  | (Return a, w') => (Return a, w')
  | (Raise e', w') => tool_error_handler e' w'
  end = tool_error_handler e w1.
Proof.
  unfold api_error_handler, tool_error_handler, raise, lift, ret.
  destruct (exn_cls e) eqn:E; cbn; rewrite ?E; reflexivity.
Qed.

(** The branch once its arguments are read: what is left is the search
    and what follows it, inside the two [try] blocks. *)
Lemma create_contact_run arguments firstname lastname extra (w : World) :
  arguments <> [] ->
  lookup "firstname" arguments = Some firstname ->
  lookup "lastname" arguments = Some lastname ->
  section_of "properties" arguments = Some extra ->
  handle_call_tool crm float_repr dict_str update_other
    "hubspot_create_contact" (Some arguments) w
  = match contacts_do_search crm
            (contact_filter_groups firstname lastname
               (get_or "company" PNone extra)) w with
    | (Raise e, w1) => tool_error_handler e w1
    | (Return search_response, w1) =>
        if Z.ltb 0 (total search_response) then
          match first_to_dict search_response with
          | Return existing =>
              (Return (text_content
                         ("Contact already exists: " ++ dict_str existing)),
               w1)
          | Raise e => tool_error_handler e w1
          end
        else
          match contact_properties update_other arguments firstname lastname
          with
          | Raise e => tool_error_handler e w1
          | Return properties =>
              match contacts_create crm properties w1 with
              | (Return api_response, w2) =>
                  (Return (text_content (dict_str (to_dict api_response))),
                   w2)
              | (Raise e, w2) => tool_error_handler e w2
              end
          end
    end.
Proof.
  intros Hne Hfn Hln Hex. destruct arguments as [|kv args]; [congruence|].
  unfold handle_call_tool, create_contact.
  cbn [String.eqb Ascii.eqb Bool.eqb].
  unfold try_except, bind, lift.
  rewrite (py_subscript_present _ _ _ Hfn), (py_subscript_present _ _ _ Hln).
  rewrite py_get_dict. cbn [rbind].
  rewrite (section_get_or _ _ _ Hex). rewrite py_get_dict.
  destruct (contacts_do_search crm _ w) as [[sr|e] w1].
  - destruct (Z.ltb 0 (total sr)).
    + destruct (first_to_dict sr) as [existing|e]; [reflexivity|].
      apply api_then_tool.
    + destruct (contact_properties update_other (kv :: args) firstname lastname)
        as [properties|e].
      * destruct (contacts_create crm properties w1) as [[obj|e] w2];
          [reflexivity|].
        apply api_then_tool.
      * apply api_then_tool.
  - apply api_then_tool.
Qed.

End ContactTool.


Section CompanyTool.
Variable World : Type.
Variable crm : Crm World.
Variable float_repr : spec_float -> string.
Variable dict_str : pyval -> string.
Variable update_other :
  list (string * pyval) -> pyval -> result (list (string * pyval)).

Lemma create_company_run arguments company_name (w : World) :
  arguments <> [] ->
  lookup "name" arguments = Some company_name ->
  handle_call_tool crm float_repr dict_str update_other
    "hubspot_create_company" (Some arguments) w
  = match companies_do_search crm
            (PList [PDict [("filters",
                            PList [eq_filter "name" company_name])]]) w with
    | (Raise e, w1) => tool_error_handler e w1
    | (Return search_response, w1) =>
        if Z.ltb 0 (total search_response) then
          match first_to_dict search_response with
          | Return existing =>
              (Return (text_content
                         ("Company already exists: " ++ dict_str existing)),
               w1)
          | Raise e => tool_error_handler e w1
          end
        else
          match company_properties update_other arguments company_name with
          | Raise e => tool_error_handler e w1
          | Return properties =>
              match companies_create crm properties w1 with
              | (Return api_response, w2) =>
                  (Return (text_content (dict_str (to_dict api_response))),
                   w2)
              | (Raise e, w2) => tool_error_handler e w2
              end
          end
    end.
Proof.
  intros Hne Hn. destruct arguments as [|kv args]; [congruence|].
  unfold handle_call_tool, create_company.
  cbn [String.eqb Ascii.eqb Bool.eqb].
  unfold try_except, bind, lift.
  rewrite (py_subscript_present _ _ _ Hn).
  destruct (companies_do_search crm _ w) as [[sr|e] w1].
  - destruct (Z.ltb 0 (total sr)).
    + destruct (first_to_dict sr) as [existing|e]; [reflexivity|].
      apply api_then_tool.
    + destruct (company_properties update_other (kv :: args) company_name)
        as [properties|e].
      * destruct (companies_create crm properties w1) as [[obj|e] w2];
          [reflexivity|].
        apply api_then_tool.
      * apply api_then_tool.
  - apply api_then_tool.
Qed.

End CompanyTool.

(** X19. When the search finds a contact (a positive total and a first
    result), [hubspot_create_contact] answers "Contact already exists:"
    with that first result and creates nothing: the world is left as
    the search left it. The search filters on firstname and lastname,
    and on company when [properties.company] is given and truthy. *)
Theorem existing_contact_is_not_recreated :
  forall (World : Type) (crm : Crm World)
         (float_repr : spec_float -> string) (dict_str : pyval -> string)
         (update_other :
            list (string * pyval) -> pyval -> result (list (string * pyval)))
         (arguments extra : list (string * pyval))
         (firstname lastname : pyval) (w w1 : World)
         (search_response : SearchResponse) (first : CrmObject)
         (others : list CrmObject),
    arguments <> [] ->
    lookup "firstname" arguments = Some firstname ->
    lookup "lastname" arguments = Some lastname ->
    section_of "properties" arguments = Some extra ->
    contacts_do_search crm
      (PList [PDict [("filters",
                      PList ([eq_filter "firstname" firstname;
                              eq_filter "lastname" lastname]
                               ++ if truthy (get_or "company" PNone extra)
                                  then [eq_filter "company"
                                          (get_or "company" PNone extra)]
                                  else [])%list)]]) w
    = (Return search_response, w1) ->
    (0 < total search_response)%Z ->
    search_results search_response = first :: others ->
    handle_call_tool crm float_repr dict_str update_other
      "hubspot_create_contact" (Some arguments) w
    = (Return (text_content
                 ("Contact already exists: " ++ dict_str (to_dict first))),
       w1).
Proof.
  intros World crm float_repr dict_str update_other arguments extra
         firstname lastname w w1 sr first others Hne Hfn Hln Hex Hs Ht Hr.
  rewrite (create_contact_run _ _ _ _ _ _ _ _ _ _ Hne Hfn Hln Hex).
  assert (Hfg : contact_filter_groups firstname lastname
                  (get_or "company" PNone extra)
                = PList [PDict [("filters",
                      PList ([eq_filter "firstname" firstname;
                              eq_filter "lastname" lastname]
                               ++ if truthy (get_or "company" PNone extra)
                                  then [eq_filter "company"
                                          (get_or "company" PNone extra)]
                                  else [])%list)]]).
  { unfold contact_filter_groups.
    destruct (truthy (get_or "company" PNone extra)); reflexivity. }
  rewrite Hfg, Hs. apply Z.ltb_lt in Ht. rewrite Ht.
  unfold first_to_dict. rewrite Hr. reflexivity.
Qed.

Lemma existing_contact_is_not_recreated_witness :
  handle_call_tool sample_crm no_floats no_dict_str no_update_other
    "hubspot_create_contact"
    (Some [("firstname", PStr "Ann"); ("lastname", PStr "Lee")]) []
  = (Return (text_content "Contact already exists: {...}"),
     ["contacts.do_search"]).
Proof.
  apply (existing_contact_is_not_recreated _ sample_crm no_floats no_dict_str
           no_update_other
           [("firstname", PStr "Ann"); ("lastname", PStr "Lee")] []
           (PStr "Ann") (PStr "Lee") [] ["contacts.do_search"]
           {| total := 1; search_results := [ann] |} ann []);
    try reflexivity.
  discriminate.
Defined.

(** X20. When the search finds no contact (a total of zero or less),
    [hubspot_create_contact] creates one with the properties built from
    the arguments and answers with the created record; the search and
    the creation are the only two calls. *)
Theorem new_contact_is_created :
  forall (World : Type) (crm : Crm World)
         (float_repr : spec_float -> string) (dict_str : pyval -> string)
         (update_other :
            list (string * pyval) -> pyval -> result (list (string * pyval)))
         (arguments extra properties : list (string * pyval))
         (firstname lastname : pyval) (w w1 w2 : World)
         (search_response : SearchResponse) (api_response : CrmObject),
    arguments <> [] ->
    lookup "firstname" arguments = Some firstname ->
    lookup "lastname" arguments = Some lastname ->
    section_of "properties" arguments = Some extra ->
    contacts_do_search crm
      (contact_filter_groups firstname lastname (get_or "company" PNone extra))
      w = (Return search_response, w1) ->
    (total search_response <= 0)%Z ->
    contact_properties update_other arguments firstname lastname
    = Return properties ->
    contacts_create crm properties w1 = (Return api_response, w2) ->
    handle_call_tool crm float_repr dict_str update_other
      "hubspot_create_contact" (Some arguments) w
    = (Return (text_content (dict_str (to_dict api_response))), w2).
Proof.
  intros World crm float_repr dict_str update_other arguments extra
         properties firstname lastname w w1 w2 sr obj
         Hne Hfn Hln Hex Hs Ht Hp Hc.
  rewrite (create_contact_run _ _ _ _ _ _ _ _ _ _ Hne Hfn Hln Hex).
  rewrite Hs. apply Z.ltb_ge in Ht. rewrite Ht, Hp, Hc. reflexivity.
Qed.

Lemma new_contact_is_created_witness :
  handle_call_tool empty_crm no_floats no_dict_str no_update_other
    "hubspot_create_contact"
    (Some [("firstname", PStr "Ann"); ("lastname", PStr "Lee")]) []
  = (Return (text_content "{...}"), ["contacts.do_search"; "contacts.create"]).
Proof.
  apply (new_contact_is_created _ empty_crm no_floats no_dict_str
           no_update_other
           [("firstname", PStr "Ann"); ("lastname", PStr "Lee")] []
           [("firstname", PStr "Ann"); ("lastname", PStr "Lee")]
           (PStr "Ann") (PStr "Lee") [] ["contacts.do_search"]
           ["contacts.do_search"; "contacts.create"]
           {| total := 0; search_results := [] |}
           {| to_dict := PDict [("firstname", PStr "Ann");
                                ("lastname", PStr "Lee")] |});
    try reflexivity; discriminate.
Defined.

(** X22. When the contact search raises [e], nothing is created and the
    answer is the text of [e], after "HubSpot API error: " for the
    [ApiException] the handlers name and after "Error: " for any other
    exception; a positive total with an empty result list is answered
    "Error: list index out of range". *)
Theorem contact_search_failure_is_reported :
  forall (World : Type) (crm : Crm World)
         (float_repr : spec_float -> string) (dict_str : pyval -> string)
         (update_other :
            list (string * pyval) -> pyval -> result (list (string * pyval)))
         (arguments extra : list (string * pyval))
         (firstname lastname : pyval) (w w1 : World),
    arguments <> [] ->
    lookup "firstname" arguments = Some firstname ->
    lookup "lastname" arguments = Some lastname ->
    section_of "properties" arguments = Some extra ->
    (forall e,
        contacts_do_search crm
          (contact_filter_groups firstname lastname
             (get_or "company" PNone extra)) w = (Raise e, w1) ->
        handle_call_tool crm float_repr dict_str update_other
          "hubspot_create_contact" (Some arguments) w
        = (Return (text_content
                     ((match exn_cls e with
                       | ApiException => "HubSpot API error: "
                       | _ => "Error: "
                       end) ++ exn_str e)), w1))
    /\ (forall search_response,
          contacts_do_search crm
            (contact_filter_groups firstname lastname
               (get_or "company" PNone extra)) w
          = (Return search_response, w1) ->
          (0 < total search_response)%Z ->
          search_results search_response = [] ->
          handle_call_tool crm float_repr dict_str update_other
            "hubspot_create_contact" (Some arguments) w
          = (Return (text_content "Error: list index out of range"), w1)).
Proof.
  intros World crm float_repr dict_str update_other arguments extra
         firstname lastname w w1 Hne Hfn Hln Hex.
  split.
  - intros e Hs.
    rewrite (create_contact_run _ _ _ _ _ _ _ _ _ _ Hne Hfn Hln Hex), Hs.
    apply tool_error_handler_returns.
  - intros sr Hs Ht Hr.
    rewrite (create_contact_run _ _ _ _ _ _ _ _ _ _ Hne Hfn Hln Hex), Hs.
    apply Z.ltb_lt in Ht. rewrite Ht. unfold first_to_dict. rewrite Hr.
    reflexivity.
Qed.

Lemma contact_search_failure_is_reported_witness :
  handle_call_tool
    (mock_crm unlinked_client (Return []) (Return [])
       (fun _ => Raise (mkExn ApiException "(429) Too Many Requests"))
       (fun _ => Return ann))
    no_floats no_dict_str no_update_other "hubspot_create_contact"
    (Some [("firstname", PStr "Ann"); ("lastname", PStr "Lee")]) []
  = (Return (text_content "HubSpot API error: (429) Too Many Requests"),
     ["contacts.do_search"]).
Proof.
  apply (proj1 (contact_search_failure_is_reported _
                  (mock_crm unlinked_client (Return []) (Return [])
                     (fun _ => Raise (mkExn ApiException
                                        "(429) Too Many Requests"))
                     (fun _ => Return ann))
                  no_floats no_dict_str no_update_other
                  [("firstname", PStr "Ann"); ("lastname", PStr "Lee")] []
                  (PStr "Ann") (PStr "Lee") [] ["contacts.do_search"]
                  ltac:(discriminate) eq_refl eq_refl eq_refl)
           (mkExn ApiException "(429) Too Many Requests")).
  reflexivity.
Defined.

(** X23. [hubspot_create_company] searches for the exact name first. A
    company found (positive total, a first result) is reported as
    already existing and nothing is created; with none found the
    company is created with [name] overridden and extended by the
    additional [properties], and the created record is the answer. *)
Theorem create_company_outcome :
  forall (World : Type) (crm : Crm World)
         (float_repr : spec_float -> string) (dict_str : pyval -> string)
         (update_other :
            list (string * pyval) -> pyval -> result (list (string * pyval)))
         (arguments : list (string * pyval)) (company_name : pyval)
         (w w1 : World) (search_response : SearchResponse),
    arguments <> [] ->
    lookup "name" arguments = Some company_name ->
    companies_do_search crm
      (PList [PDict [("filters", PList [eq_filter "name" company_name])]]) w
    = (Return search_response, w1) ->
    (forall first others,
        (0 < total search_response)%Z ->
        search_results search_response = first :: others ->
        handle_call_tool crm float_repr dict_str update_other
          "hubspot_create_company" (Some arguments) w
        = (Return (text_content
                     ("Company already exists: " ++ dict_str (to_dict first))),
           w1))
    /\ (forall extra api_response w2,
          (total search_response <= 0)%Z ->
          section_of "properties" arguments = Some extra ->
          companies_create crm (dict_update [("name", company_name)] extra) w1
          = (Return api_response, w2) ->
          handle_call_tool crm float_repr dict_str update_other
            "hubspot_create_company" (Some arguments) w
          = (Return (text_content (dict_str (to_dict api_response))), w2)).
Proof.
  intros World crm float_repr dict_str update_other arguments company_name
         w w1 sr Hne Hn Hs.
  split.
  - intros first others Ht Hr.
    rewrite (create_company_run _ _ _ _ _ _ _ _ Hne Hn), Hs.
    apply Z.ltb_lt in Ht. rewrite Ht. unfold first_to_dict. rewrite Hr.
    reflexivity.
  - intros extra obj w2 Ht Hex Hc.
    rewrite (create_company_run _ _ _ _ _ _ _ _ Hne Hn), Hs.
    apply Z.ltb_ge in Ht. rewrite Ht.
    assert (Hp : company_properties update_other arguments company_name
                 = Return (dict_update [("name", company_name)] extra)).
    { unfold company_properties, py_in, py_subscript, section_of in *.
      destruct (lookup "properties" arguments) as [[]|]; try discriminate;
        injection Hex as <-; reflexivity. }
    rewrite Hp, Hc. reflexivity.
Qed.

Lemma create_company_outcome_witness :
  handle_call_tool empty_crm no_floats no_dict_str no_update_other
    "hubspot_create_company"
    (Some [("name", PStr "Acme"); ("properties", PDict [("city", PStr "Oslo")])])
    []
  = (Return (text_content "{...}"), ["companies.do_search"; "companies.create"]).
Proof.
  apply (proj2 (create_company_outcome _ empty_crm no_floats no_dict_str
                  no_update_other
                  [("name", PStr "Acme");
                   ("properties", PDict [("city", PStr "Oslo")])]
                  (PStr "Acme") [] ["companies.do_search"]
                  {| total := 0; search_results := [] |}
                  ltac:(discriminate) eq_refl eq_refl)
           [("city", PStr "Oslo")]
           {| to_dict := PDict [("name", PStr "Acme"); ("city", PStr "Oslo")] |}
           ["companies.do_search"; "companies.create"]);
    try reflexivity; discriminate.
Defined.

(** X24. [hubspot_get_company_activity] with a string [company_id] answers
    with exactly the text [get_company_activity] returns for it: the
    list, or the JSON error object when the client library fails (not
    an "Error:" text). *)
Theorem activity_tool_passes_text :
  forall (World : Type) (crm : Crm World)
         (float_repr : spec_float -> string) (dict_str : pyval -> string)
         (update_other :
            list (string * pyval) -> pyval -> result (list (string * pyval)))
         (arguments : list (string * pyval)) (company_id : string) (w : World),
    lookup "company_id" arguments = Some (PStr company_id) ->
    exists s w',
      get_company_activity (base crm) float_repr company_id w = (Return s, w')
      /\ handle_call_tool crm float_repr dict_str update_other
           "hubspot_get_company_activity" (Some arguments) w
         = (Return (text_content s), w').
Proof.
  intros World crm float_repr dict_str update_other arguments company_id w Hl.
  destruct (get_company_activity_never_raises _ (base crm) float_repr
              company_id w) as [s [w' Hrun]].
  exists s, w'. split; [exact Hrun|].
  destruct arguments as [|kv args]; [discriminate Hl|].
  unfold handle_call_tool, company_activity.
  cbn [String.eqb Ascii.eqb Bool.eqb].
  unfold try_except, bind, lift.
  rewrite (py_subscript_present _ _ _ Hl), Hrun. reflexivity.
Qed.

Lemma activity_tool_passes_text_witness :
  handle_call_tool sample_crm no_floats no_dict_str no_update_other
    "hubspot_get_company_activity" (Some [("company_id", PStr "123")]) []
  = (Return (text_content "[]"), ["get_page companies 123"]).
Proof.
  destruct (activity_tool_passes_text _ sample_crm no_floats no_dict_str
              no_update_other [("company_id", PStr "123")] "123" [] eq_refl)
    as [s [w' [Hrun Htool]]].
  rewrite Htool. injection Hrun as <- <-. reflexivity.
Defined.


Lemma scheme_prefix_has_colon s :
  String.prefix "hubspot://" s = true ->
  In ":"%char (list_ascii_of_string s).
Proof.
  intros H.
  do 8 (destruct s as [|? s]; [discriminate H|];
        cbn [String.prefix] in H;
        match type of H with
        | (if ?d then _ else _) = true => destruct d; [subst|discriminate H]
        end).
  simpl. tauto.
Qed.

Lemma replace_without_colon p :
  ~ In ":"%char (list_ascii_of_string p) ->
  str_replace "hubspot://" "" p = p.
Proof.
  unfold str_replace. induction p as [|c p IH]; intros Hn; [reflexivity|].
  cbn [replace_from].
  destruct (String.prefix "hubspot://" (String c p)) eqn:Hp.
  - exfalso. apply Hn. now apply scheme_prefix_has_colon.
  - f_equal. apply IH. intros Hin. apply Hn. simpl. tauto.
Qed.

Lemma replace_scheme p :
  str_replace "hubspot://" "" ("hubspot://" ++ p)
  = str_replace "hubspot://" "" p.
Proof. destruct p; reflexivity. Qed.

Example replace_every_occurrence :
  str_replace "hubspot://" "" "ahubspot://bhubspot://hubspot://c" = "abc".
Proof. reflexivity. Qed.

Example replace_keeps_partial_match :
  str_replace "hubspot://" "" "hubspot:/hubspot_contacts"
  = "hubspot:/hubspot_contacts".
Proof. reflexivity. Qed.

(** X25. [handle_read_resource] returns only what [get_contacts] or
    [get_companies] returns, and only for the scheme hubspot; any
    other scheme raises the unsupported-scheme [ValueError]; whenever
    it raises, the exception is a [ValueError] and no call has reached
    the client library. *)
Theorem read_resource_outcome :
  forall (World : Type) (crm : Crm World)
         (float_repr : spec_float -> string) (uri : AnyUrl) (w : World),
    (scheme uri <> "hubspot" ->
     handle_read_resource crm float_repr uri w
     = (Raise (value_error ("Unsupported URI scheme: " ++ scheme uri)), w))
    /\ (forall s w',
          handle_read_resource crm float_repr uri w = (Return s, w') ->
          scheme uri = "hubspot"
          /\ (get_contacts crm float_repr w = (Return s, w')
              \/ get_companies crm float_repr w = (Return s, w')))
    /\ (forall e w',
          handle_read_resource crm float_repr uri w = (Raise e, w') ->
          w' = w /\ exn_cls e = OtherException "ValueError").
Proof.
  intros World crm float_repr uri w. unfold handle_read_resource.
  destruct (String.eqb_spec (scheme uri) "hubspot") as [Hs | Hs]; cbn [negb].
  - split; [intros Hn; contradiction|].
    destruct (String.eqb (str_replace "hubspot://" "" (url_text uri))
                         "hubspot_contacts").
    { split; [intros s w' H; auto|].
      intros e w' H.
      destruct (read_text_head crm float_repr (contacts_get_all crm) w)
        as [s [w1 [Hrun _]]].
      unfold get_contacts in H. rewrite Hrun in H. discriminate H. }
    destruct (String.eqb (str_replace "hubspot://" "" (url_text uri))
                         "hubspot_companies").
    { split; [intros s w' H; auto|].
      intros e w' H.
      destruct (read_text_head crm float_repr (companies_get_all crm) w)
        as [s [w1 [Hrun _]]].
      unfold get_companies in H. rewrite Hrun in H. discriminate H. }
    split; [intros s w' H; discriminate H|].
    intros e w' [= <- <-]. split; reflexivity.
  - split; [reflexivity|].
    split; [intros s w' H; discriminate H|].
    intros e w' [= <- <-]. split; reflexivity.
Qed.

Lemma read_resource_outcome_witness :
  handle_read_resource sample_crm no_floats
    {| scheme := "https"; url_text := "https://hubspot_contacts/" |} []
  = (Raise (value_error "Unsupported URI scheme: https"), []).
Proof.
  apply (proj1 (read_resource_outcome _ sample_crm no_floats
                  {| scheme := "https";
                     url_text := "https://hubspot_contacts/" |} [])).
  discriminate.
Defined.

(** X26. A hubspot URI whose text is the scheme prefix followed by a path
    without a colon is resolved by that path alone: hubspot_contacts and
    hubspot_companies are read, any other path raises the unknown-path
    [ValueError] naming it. *)
Theorem read_resource_by_path :
  forall (World : Type) (crm : Crm World)
         (float_repr : spec_float -> string) (path : string) (w : World),
    ~ In ":"%char (list_ascii_of_string path) ->
    handle_read_resource crm float_repr
      {| scheme := "hubspot"; url_text := "hubspot://" ++ path |} w
    = if String.eqb path "hubspot_contacts" then get_contacts crm float_repr w
      else if String.eqb path "hubspot_companies"
           then get_companies crm float_repr w
           else (Raise (value_error ("Unknown resource path: " ++ path)), w).
Proof.
  intros World crm float_repr path w Hn. unfold handle_read_resource.
  cbn [scheme url_text String.eqb Ascii.eqb Bool.eqb negb].
  rewrite replace_scheme, (replace_without_colon _ Hn).
  destruct (String.eqb path "hubspot_contacts"); [reflexivity|].
  destruct (String.eqb path "hubspot_companies"); reflexivity.
Qed.

Lemma read_resource_by_path_witness :
  handle_read_resource sample_crm no_floats
    {| scheme := "hubspot"; url_text := "hubspot://hubspot_companies" |} []
  = get_companies sample_crm no_floats [].
Proof.
  apply (read_resource_by_path _ sample_crm no_floats "hubspot_companies" []).
  simpl. intros H.
  repeat (destruct H as [H|H]; [discriminate H|]). exact H.
Defined.

End CompanionFacts.
